(** * Cosa: UART driver, HD44780 MJKDZ adapter and Rotary dial

    A shallow embedding of

    - [Cosa/IOStream/Driver/UART.cpp]: the bit-banged UART of the ATtiny
      boards and the interrupt-driven, buffered UART of the ATmega boards,
    - [Cosa/IOStream/Driver/HD44780_IO_MJKDZ.cpp]: the back-light control
      of the MJKDZ I2C adapter,
    - [Cosa/Rotary.hh]: the event handler of [Rotary::Dial],

    together with the properties of these functions that the driver
    specification states.

    Conventions.  A C integer of [w] bits is a [Z]; every conversion to an
    unsigned type is written out as [wrap w].  A volatile access to a
    hardware register, a call of an [IOBuffer] member and a pin or delay
    operation are recorded, in program order, in a list of events carried by
    the state: the list is what an observer of the bus (or of the line) sees.
    An operation whose behaviour C++ leaves undefined (a division by zero)
    has no result ([None]). *)

From Stdlib Require Import ZArith Lia List Bool.
From stdpp Require Import base option list.
Import ListNotations.

Local Open Scope Z_scope.

(** ** Fixed-width arithmetic *)

(** Conversion to an unsigned integer type of [w] bits. *)
Definition wrap (w x : Z) : Z := x mod 2 ^ w.

Definition uint8 : Z -> Z := wrap 8.
Definition uint16 : Z -> Z := wrap 16.
Definition uint32 : Z -> Z := wrap 32.

(** [a / b] on [unsigned long] operands; undefined when the divisor is 0. *)
Definition udiv32 (a b : Z) : option Z :=
  if uint32 b =? 0 then None else Some (uint32 a / uint32 b).

(** [_BV(bit)] of <avr/sfr_defs.h>: [(1 << (bit))]. *)
Definition _BV (bit : Z) : Z := Z.shiftl 1 bit.

(** ** Circular byte buffer *)

Module IOBuffer.

(** Modelled from the spec: class [IOBuffer] (Cosa/IOBuffer.hh) is not among
    the sources.  The specification describes a ring of fixed capacity [N]
    with a [head] index (next write slot), a [tail] index (next read slot)
    and an element [count]; indices are taken modulo [N]. *)
Record t : Type := mk {
  storage : list Z;
  head : nat;
  tail : nat;
  count : nat
}.

Definition capacity (b : t) : nat := length (storage b).

Definition is_empty (b : t) : bool := Nat.eqb (count b) 0.
Definition is_full (b : t) : bool := Nat.eqb (count b) (capacity b).

(** Modelled from the spec: [put(byte) -> success|full] inserts at [head],
    advances [head] and increments the count; it returns failure without
    mutating state if the buffer is already full.  The callers in UART.cpp
    test the result against [-1]; on success the byte is returned. *)
Definition putchar (c : Z) (b : t) : Z * t :=
  if is_full b then (-1, b)
  else (uint8 c,
        {| storage := <[head b := uint8 c]> (storage b);
           head := ((head b + 1) mod capacity b)%nat;
           tail := tail b;
           count := S (count b) |}).

(** Modelled from the spec: [get() -> byte|empty] removes at [tail],
    advances [tail] and decrements the count; it returns failure ([-1])
    without mutating state if the buffer is already empty. *)
Definition getchar (b : t) : Z * t :=
  if is_empty b then (-1, b)
  else (uint8 (default 0 (storage b !! tail b)),
        {| storage := storage b;
           head := head b;
           tail := ((tail b + 1) mod capacity b)%nat;
           count := Nat.pred (count b) |}).

(** Modelled from the spec: [flush()] resets to empty, discarding contents. *)
Definition flush (b : t) : t :=
  {| storage := storage b; head := 0; tail := 0; count := 0 |}.

(** The buffer invariant of the specification: [0 <= count <= N], indices
    within the ring. *)
Definition wf (b : t) : Prop :=
  (count b <= capacity b)%nat /\
  ((head b < capacity b)%nat \/ capacity b = 0%nat) /\
  ((tail b < capacity b)%nat \/ capacity b = 0%nat).

End IOBuffer.

(** ** The USART register file and the event trace *)

(** Hardware channel. *)
Inductive port : Type := USART0 | USART1.

#[global] Instance port_eq_dec : EqDecision port.
Proof. solve_decision. Defined.

(** The registers of one channel: control and status A, B, C, the baud rate
    register, and the data register. *)
Inductive reg : Type := UCSRA | UCSRB | UCSRC | UBRR | UDR.

Inductive direction : Type := Input | Output.

(** What the driver does to the outside of the function that runs: volatile
    loads and stores of registers, calls of the members of a port's input
    or output buffer, and putting the processor to sleep. *)
Inductive event : Type :=
| Load (p : port) (r : reg)
| Store (p : port) (r : reg) (v : Z)
| Getchar (p : port) (d : direction)
| Putchar (p : port) (d : direction) (c : Z)
| Flush (p : port) (d : direction)
| Sleep.

(** Register contents of one channel.  [UDRn] is the receive data buffer:
    the transmit data buffer shares its address, is write-only, and a store
    to it shows in the trace only. *)
Record usart : Type := mk_usart {
  UCSRnA : Z;
  UCSRnB : Z;
  UCSRnC : Z;
  UBRRn : Z;
  UDRn : Z
}.

Record machine : Type := mk_machine {
  usart0 : usart;
  usart1 : usart;
  trace : list event
}.

Definition regs (p : port) (m : machine) : usart :=
  match p with USART0 => usart0 m | USART1 => usart1 m end.

Definition read_reg (r : reg) (u : usart) : Z :=
  match r with
  | UCSRA => UCSRnA u
  | UCSRB => UCSRnB u
  | UCSRC => UCSRnC u
  | UBRR => UBRRn u
  | UDR => UDRn u
  end.

(** The width of a register: 16 bits for UBRR, 8 bits for the others. *)
Definition width (r : reg) : Z :=
  match r with UBRR => 16 | _ => 8 end.

Definition write_reg (r : reg) (v : Z) (u : usart) : usart :=
  match r with
  | UCSRA => mk_usart v (UCSRnB u) (UCSRnC u) (UBRRn u) (UDRn u)
  | UCSRB => mk_usart (UCSRnA u) v (UCSRnC u) (UBRRn u) (UDRn u)
  | UCSRC => mk_usart (UCSRnA u) (UCSRnB u) v (UBRRn u) (UDRn u)
  | UBRR => mk_usart (UCSRnA u) (UCSRnB u) (UCSRnC u) v (UDRn u)
  | UDR => u
  end.

Definition set_regs (p : port) (u : usart) (m : machine) : machine :=
  match p with
  | USART0 => mk_machine u (usart1 m) (trace m)
  | USART1 => mk_machine (usart0 m) u (trace m)
  end.

Definition emit (e : event) (m : machine) : machine :=
  mk_machine (usart0 m) (usart1 m) (trace m ++ [e]).

(** ** A state and error monad for code that touches the hardware *)

Definition M (A : Type) : Type := machine -> option (A * machine).

Definition ret {A} (a : A) : M A := fun m => Some (a, m).

Definition bind {A B} (c : M A) (k : A -> M B) : M B :=
  fun m => match c m with
           | Some (a, m') => k a m'
           | None => None
           end.

Declare Scope hw_scope.
Delimit Scope hw_scope with hw.
Notation "x <- c ;; k" := (bind c (fun x => k))
  (at level 100, c at next level, right associativity) : hw_scope.
Notation "c ;;; k" := (bind c (fun _ => k))
  (at level 100, right associativity) : hw_scope.

(** Lift a partial pure computation. *)
Definition lift {A} (o : option A) : M A :=
  fun m => match o with Some a => Some (a, m) | None => None end.

Definition load (p : port) (r : reg) : M Z :=
  fun m => Some (read_reg r (regs p m), emit (Load p r) m).

(** A store converts the value to the register's width. *)
Definition store (p : port) (r : reg) (v : Z) : M unit :=
  fun m =>
    let v := wrap (width r) v in
    Some (tt, emit (Store p r v) (set_regs p (write_reg r v (regs p m)) m)).

Definition note (e : event) : M unit := fun m => Some (tt, emit e m).

(** ** Bit numbers of the USART registers *)

(** The bit numbers of <avr/io.h> for the ATmega328P and ATmega1284P: in
    UCSRnA the double-speed bit, in UCSRnB the interrupt and unit enables. *)
Module AVR.
Definition U2X0 : Z := 1.
Definition RXCIE0 : Z := 7.
Definition TXCIE0 : Z := 6.
Definition UDRIE0 : Z := 5.
Definition RXEN0 : Z := 4.
Definition TXEN0 : Z := 3.
End AVR.

(** ** The interrupt-driven UART (the [#else] branch of UART.cpp) *)

Module Mega.
Import AVR.

(** An instance of class UART: the channel that [UCSRnA()], [UCSRnB()],
    [UCSRnC()] and [UBRRn()] resolve to, and the two buffers. *)
Record UART : Type := mk_UART {
  m_port : port;
  m_ibuf : IOBuffer.t;
  m_obuf : IOBuffer.t
}.

Section Clock.

(** The clock frequency, a macro set by the build. *)
Variable F_CPU : Z.

(** [(F_CPU / (baudrate * k)) - 1], computed on [unsigned long] and
    converted to the [uint16_t] variable [setting]. *)
Definition divisor (k baudrate : Z) : option Z :=
  match udiv32 F_CPU (baudrate * k) with
  | Some q => Some (uint16 (uint32 (q - 1)))
  | None => None
  end.

Definition begin (self : UART) (baudrate format : Z) : M bool :=
  (setting <- lift (divisor 8 baudrate) ;;
   (* Check if double rate is not possible *)
   setting <- (if 4095 <? setting
               then lift (divisor 16 baudrate)
               else (store (m_port self) UCSRA (_BV U2X0) ;;; ret setting)) ;;
   (* Set baudrate *)
   store (m_port self) UBRR setting ;;;
   store (m_port self) UCSRB
         (Z.lor (Z.lor (_BV RXCIE0) (_BV RXEN0)) (_BV TXEN0)) ;;;
   store (m_port self) UCSRC format ;;;
   ret true)%hw.

End Clock.

Definition end_ (self : UART) : M (bool * UART) :=
  (b <- load (m_port self) UCSRB ;;
   store (m_port self) UCSRB
         (Z.land b (Z.lnot (Z.lor (Z.lor (_BV RXCIE0) (_BV RXEN0)) (_BV TXEN0)))) ;;;
   note (Flush (m_port self) Output) ;;;
   note (Flush (m_port self) Input) ;;;
   ret (true, mk_UART (m_port self)
                      (IOBuffer.flush (m_ibuf self))
                      (IOBuffer.flush (m_obuf self))))%hw.

(** Modelled from the spec: the macro [bit_clear] (Cosa/Bits.h) is not among
    the sources; the handler uses it to disable the transmit-empty
    interrupt, a read-modify-write that clears one bit of the register. *)
Definition bit_clear (p : port) (r : reg) (b : Z) : M unit :=
  (v <- load p r ;; store p r (Z.land v (Z.lnot (_BV b))))%hw.

(** [m_obuf->getchar()] and [m_ibuf->putchar(c)] on an instance. *)
Definition obuf_getchar (self : UART) : M (Z * UART) :=
  (note (Getchar (m_port self) Output) ;;;
   let (c, b) := IOBuffer.getchar (m_obuf self) in
   ret (c, mk_UART (m_port self) (m_ibuf self) b))%hw.

Definition ibuf_putchar (self : UART) (c : Z) : M (Z * UART) :=
  (note (Putchar (m_port self) Input c) ;;;
   let (r, b) := IOBuffer.putchar c (m_ibuf self) in
   ret (r, mk_UART (m_port self) b (m_obuf self)))%hw.

Definition obuf_putchar (self : UART) (c : Z) : M (Z * UART) :=
  (note (Putchar (m_port self) Output c) ;;;
   let (r, b) := IOBuffer.putchar c (m_obuf self) in
   ret (r, mk_UART (m_port self) (m_ibuf self) b))%hw.

(** [putchar]: while the output buffer refuses the character the processor
    sleeps in idle mode with interrupts enabled.  [wake] is what the
    handlers that end a sleep do to the instance and to the hardware;
    [fuel] bounds the number of sleeps, and the result is [None] when it
    runs out with the buffer still full. *)
Fixpoint putchar (wake : UART -> M UART) (fuel : nat) (self : UART) (c : Z)
  : M (option Z * UART) :=
  (r <- obuf_putchar self c ;;
   let (res, self) := r : Z * UART in
   if res =? -1 then
     match fuel with
     | O => ret (None, self)
     | S n => note Sleep ;;; self <- wake self ;; putchar wake n self c
     end
   else
     b <- load (m_port self) UCSRB ;;
     store (m_port self) UCSRB (Z.lor b (_BV UDRIE0)) ;;;
     ret (Some (Z.land c 255), self))%hw.

(** The objects the handlers reach: the global [uart], and the pointer
    [uart1], null when no instance is bound to the second channel. *)
Record globals : Type := mk_globals {
  uart : UART;
  uart1 : option UART
}.

(** [ISR(USART_UDRE_vect)] *)
Definition ISR_USART_UDRE (g : globals) : M globals :=
  (r <- obuf_getchar (uart g) ;;
   let (c, u) := r : Z * UART in
   (if negb (c =? -1)
    then store USART0 UDR c
    else bit_clear USART0 UCSRB UDRIE0) ;;;
   ret (mk_globals u (uart1 g)))%hw.

(** [ISR(USART_RX_vect)] *)
Definition ISR_USART_RX (g : globals) : M globals :=
  (c <- load USART0 UDR ;;
   r <- ibuf_putchar (uart g) c ;;
   ret (mk_globals (snd r) (uart1 g)))%hw.

(** [ISR(USART1_UDRE_vect)] *)
Definition ISR_USART1_UDRE (g : globals) : M globals :=
  match uart1 g with
  | None => ret g
  | Some u1 =>
      (r <- obuf_getchar u1 ;;
       let (c, u) := r : Z * UART in
       (if negb (c =? -1)
        then store USART1 UDR c
        else bit_clear USART1 UCSRB UDRIE0) ;;;
       ret (mk_globals (uart g) (Some u)))%hw
  end.

(** [ISR(USART1_RX_vect)] *)
Definition ISR_USART1_RX (g : globals) : M globals :=
  match uart1 g with
  | None => ret g
  | Some u1 =>
      (c <- load USART1 UDR ;;
       r <- ibuf_putchar u1 c ;;
       ret (mk_globals (uart g) (Some (snd r))))%hw
  end.

End Mega.

(** ** The bit-banged UART (the ATtiny branch of UART.cpp) *)

Module Tiny.

(** What the line and the processor see while a frame is sent. *)
Inductive line_event : Type :=
| Lock                      (* entry of the [synchronized] block *)
| Unlock                    (* exit of the [synchronized] block *)
| PinWrite (level : Z)      (* [m_pin.write(level)] *)
| Delay (us : Z).           (* [DELAY(us)] *)

(** Modelled from the spec: the ATtiny variant of class UART
    (Cosa/IOStream/Driver/UART.hh) is not among the sources; [begin] stores
    the per-bit time period in microseconds and the frame format.  The
    period is held in 16 bits, the format in 8. *)
Record UART : Type := mk_UART {
  m_period : Z;
  m_format : Z
}.

Section Format.

(** The mask that extracts the number of data bits from the format, an
    enumerator of UART.hh. *)
Variable DATA_MASK : Z.

Definition begin (baudrate format : Z) : option (bool * UART) :=
  match udiv32 1000000 baudrate with
  | Some q => Some (true, mk_UART (uint16 q) (uint8 format))
  | None => None
  end.

(** The body of the [for] loop, [bits] times. *)
Fixpoint send_bits (period : Z) (bits : nat) (c : Z) : list line_event :=
  match bits with
  | O => []
  | S n =>
      PinWrite (Z.land c 1) :: Delay period :: send_bits period n (Z.shiftr c 1)
  end.

Definition putchar (self : UART) (c : Z) : Z * list line_event :=
  let res := Z.land c 255 in
  let bits := uint8 (Z.land (m_format self) DATA_MASK) in
  (res,
   [Lock; PinWrite 0; Delay (m_period self)]
     ++ send_bits (m_period self) (Z.to_nat bits) c
     ++ [PinWrite 1; Unlock]
     ++ [Delay (uint16 (m_period self * 32))]).

End Format.

(** The levels driven on the pin, in order. *)
Fixpoint levels (l : list line_event) : list Z :=
  match l with
  | [] => []
  | PinWrite v :: l' => v :: levels l'
  | _ :: l' => levels l'
  end.

End Tiny.

(** ** HD44780: the MJKDZ I2C adapter *)

Module HD44780.

(** The adapter: the shadow of the expander's port, [m_port.as_uint8], and
    the bytes written to the expander so far. *)
Record MJKDZ : Type := mk_MJKDZ {
  m_port : Z;
  written : list Z
}.

Section Layout.

(** The position in [m_port.as_uint8] of the one-bit field [bt]; the union
    is declared in HD44780.hh. *)
Variable bt : Z.

(** Assignment to a one-bit field: the low bit of the value is stored. *)
Definition set_field (pos : Z) (v : Z) (byte : Z) : Z :=
  if Z.odd v then Z.setbit byte pos else Z.clearbit byte pos.

(** [!flag] *)
Definition lnot_int (flag : Z) : Z := if flag =? 0 then 1 else 0.

(** [write(m_port.as_uint8)]: one byte to the I/O expander.  The expander's
    driver is not among the sources; the call is recorded by the byte it is
    given. *)
Definition write (data : Z) (self : MJKDZ) : MJKDZ :=
  mk_MJKDZ (m_port self) (written self ++ [data]).

Definition set_backlight (flag : Z) (self : MJKDZ) : MJKDZ :=
  let self := mk_MJKDZ (set_field bt (lnot_int (uint8 flag)) (m_port self))
                        (written self) in
  write (m_port self) self.

End Layout.

End HD44780.

(** ** Rotary dial *)

Module Rotary.

(** [enum Direction] *)
Definition NONE : Z := 0.
Definition CW : Z := 16.
Definition CCW : Z := 32.

(** The operations [Dial<T>] needs of its value type. *)
Class Number (T : Type) : Type := {
  add : T -> T -> T;
  sub : T -> T -> T
}.

Record Dial (T : Type) : Type := mk_Dial {
  m_value : T;
  m_min : T;
  m_max : T;
  m_step : T
}.
Arguments mk_Dial {T}.
Arguments m_value {T}.
Arguments m_min {T}.
Arguments m_max {T}.
Arguments m_step {T}.

Section Dial.
Context {T : Type} `{EqDecision T} `{Number T}.

(** [on_event]: the new state of the dial and, when it was reached, the
    argument of the call [on_change(m_value)]. *)
Definition on_event (type value : Z) (d : Dial T) : Dial T * option T :=
  if value =? CW then
    if decide (m_value d = m_max d) then (d, None)
    else
      let v := add (m_value d) (m_step d) in
      (mk_Dial v (m_min d) (m_max d) (m_step d), Some v)
  else
    if decide (m_value d = m_min d) then (d, None)
    else
      let v := sub (m_value d) (m_step d) in
      (mk_Dial v (m_min d) (m_max d) (m_step d), Some v).

End Dial.

(** [T = uint16_t]: arithmetic modulo [2 ^ 16]. *)
#[global] Instance uint16_Number : Number Z :=
  {| add := fun a b => uint16 (a + b); sub := fun a b => uint16 (a - b) |}.

End Rotary.

(** ** States used in examples *)

(** The registers of a channel after reset: the data register empty flag
    (bit 5 of UCSRnA) set, frame format 8 data bits in UCSRnC. *)
Definition reset_usart : usart := mk_usart 32 0 6 0 0.

Definition power_on : machine := mk_machine reset_usart reset_usart [].

(** An empty buffer of capacity [n]. *)
Definition empty_buffer (n : nat) : IOBuffer.t :=
  IOBuffer.mk (repeat 0 n) 0 0 0.

(** The instance [uart(0, &ibuf, &obuf)], with buffers of four bytes. *)
Definition uart_0 : Mega.UART :=
  Mega.mk_UART USART0 (empty_buffer 4) (empty_buffer 4).

(** The same instance with one byte, 0x41, waiting in the output buffer. *)
Definition uart_pending : Mega.UART :=
  Mega.mk_UART USART0 (empty_buffer 4) (IOBuffer.mk [65; 0; 0; 0] 1 0 1).

(** The same instance with the input buffer full. *)
Definition uart_full : Mega.UART :=
  Mega.mk_UART USART0 (IOBuffer.mk [1; 2; 3; 4] 0 0 4) (empty_buffer 4).

(** Channel 0 open at 9600 baud with the transmit-buffer-empty interrupt
    enabled and the byte 0x5A received; channel 1 as after reset. *)
Definition open_machine : machine :=
  mk_machine (mk_usart 2 184 6 207 90) reset_usart [].

(** ** Further members of the modelled classes *)

(** What ends a sleep of the hardware [putchar]. *)
Module Wake.

(** No handler changes the instance: nothing drains the output buffer. *)
Definition none (self : Mega.UART) : M Mega.UART := ret self.

(** The transmit-buffer-empty interrupt of channel 0 fires once: its
    handler runs on the instance as the global [uart]. *)
Definition udre (self : Mega.UART) : M Mega.UART :=
  bind (Mega.ISR_USART_UDRE (Mega.mk_globals self None))
       (fun g => ret (Mega.uart g)).

(** The number of times the processor was put to sleep. *)
Fixpoint sleeps (t : list event) : nat :=
  match t with
  | [] => 0
  | Sleep :: t' => S (sleeps t')
  | _ :: t' => sleeps t'
  end.

End Wake.

(** The returns of the hardware [putchar], as a relation. *)
Module Write.

(** The instance and the machine after an attempt that the output buffer
    accepts: the character is in the buffer, and UDRIE has been set in
    UCSRnB by a load and a store. *)
Definition accepted (self : Mega.UART) (c : Z) (m : machine) : Mega.UART * machine :=
  let p := Mega.m_port self in
  let m1 := emit (Putchar p Output c) m in
  let v := wrap 8 (Z.lor (UCSRnB (regs p m)) (_BV AVR.UDRIE0)) in
  (Mega.mk_UART p (Mega.m_ibuf self) (snd (IOBuffer.putchar c (Mega.m_obuf self))),
   emit (Store p UCSRB v)
        (set_regs p (write_reg UCSRB v (regs p m)) (emit (Load p UCSRB) m1))).

(** [returns wake c self m self' m']: started on [self] and [m], the call
    comes back with [self'] and [m'].  Either the output buffer has room
    and accepts the character at once, or it is full, the processor
    sleeps, [wake] runs, and the call comes back from there. *)
Inductive returns (wake : Mega.UART -> M Mega.UART) (c : Z)
  : Mega.UART -> machine -> Mega.UART -> machine -> Prop :=
| returns_accepted (self : Mega.UART) (m : machine) :
    IOBuffer.count (Mega.m_obuf self) <> IOBuffer.capacity (Mega.m_obuf self) ->
    returns wake c self m (fst (accepted self c m)) (snd (accepted self c m))
| returns_retry (self : Mega.UART) (m : machine) (self2 : Mega.UART) (m2 : machine)
                (self' : Mega.UART) (m' : machine) :
    IOBuffer.count (Mega.m_obuf self) = IOBuffer.capacity (Mega.m_obuf self) ->
    wake self (emit Sleep (emit (Putchar (Mega.m_port self) Output c) m)) = Some (self2, m2) ->
    returns wake c self2 m2 self' m' ->
    returns wake c self m self' m'.

End Write.

(** Timing of a bit-banged frame. *)
Module Frame.

(** The arguments of the [DELAY] calls, in order. *)
Fixpoint delays (l : list Tiny.line_event) : list Z :=
  match l with
  | [] => []
  | Tiny.Delay us :: l' => us :: delays l'
  | _ :: l' => delays l'
  end.

(** The events between [Lock] and [Unlock]: what runs inside the
    [synchronized] block. *)
Fixpoint locked (inside : bool) (l : list Tiny.line_event) : list Tiny.line_event :=
  match l with
  | [] => []
  | Tiny.Lock :: l' => locked true l'
  | Tiny.Unlock :: l' => locked false l'
  | e :: l' => if inside then e :: locked inside l' else locked inside l'
  end.

End Frame.

(** The other members of [HD44780::MJKDZ] in HD44780_IO_MJKDZ.cpp. *)
Module MJKDZ.

Section Layout.

(** The positions in [m_port.as_uint8] of the four-bit field [data] (its
    lowest bit) and of the one-bit fields [en] and [rs]; the union is
    declared in HD44780.hh. *)
Variables data en rs : Z.

(** Assignment to a four-bit field: the low four bits of the value are
    stored. *)
Definition set_nibble (pos v byte : Z) : Z :=
  Z.lor (Z.ldiff byte (Z.shiftl 15 pos)) (Z.shiftl (Z.land v 15) pos).

(** [setup]: the port shadow is cleared; the second component is the
    argument of the call [set_data_direction(0)] to the expander's driver,
    which is not among the sources. *)
Definition setup (self : HD44780.MJKDZ) : HD44780.MJKDZ * Z :=
  (HD44780.mk_MJKDZ 0 (HD44780.written self), 0).

Definition write4b (d : Z) (self : HD44780.MJKDZ) : HD44780.MJKDZ :=
  let self := HD44780.mk_MJKDZ (set_nibble data (uint8 d) (HD44780.m_port self))
                               (HD44780.written self) in
  let self := HD44780.mk_MJKDZ (HD44780.set_field en 1 (HD44780.m_port self))
                               (HD44780.written self) in
  let self := HD44780.write (HD44780.m_port self) self in
  let self := HD44780.mk_MJKDZ (HD44780.set_field en 0 (HD44780.m_port self))
                               (HD44780.written self) in
  HD44780.write (HD44780.m_port self) self.

Definition set_mode (flag : Z) (self : HD44780.MJKDZ) : HD44780.MJKDZ :=
  HD44780.mk_MJKDZ (HD44780.set_field rs (uint8 flag) (HD44780.m_port self))
                   (HD44780.written self).

End Layout.

End MJKDZ.

(** The other members of [Rotary::Dial]. *)
Module Dial.

Section Dial.
Context {T : Type} `{EqDecision T} `{Rotary.Number T}.

(** The constructor: initial value, range and step. *)
Definition new (initial min max step : T) : Rotary.Dial T :=
  Rotary.mk_Dial initial min max step.

Definition get_value (d : Rotary.Dial T) : T := Rotary.m_value d.

Definition get_step (d : Rotary.Dial T) : T := Rotary.m_step d.

Definition set_cycle (step : T) (d : Rotary.Dial T) : Rotary.Dial T :=
  Rotary.mk_Dial (Rotary.m_value d) (Rotary.m_min d) (Rotary.m_max d) step.

(** The dial after a sequence of change events, delivered in order to
    [on_event]. *)
Definition turn (values : list Z) (d : Rotary.Dial T) : Rotary.Dial T :=
  fold_left (fun d value => fst (Rotary.on_event 0 value d)) values d.

(** The arguments of the calls of [on_change] during such a sequence. *)
Fixpoint changes (values : list Z) (d : Rotary.Dial T) : list T :=
  match values with
  | [] => []
  | value :: rest =>
      let (d', c) := Rotary.on_event 0 value d in
      match c with
      | Some v => v :: changes rest d'
      | None => changes rest d'
      end
  end.

End Dial.

End Dial.

(** An instance for the second channel, with the byte 0x41 waiting in its
    output buffer. *)
Definition uart_1 : Mega.UART :=
  Mega.mk_UART USART1 (empty_buffer 4) (IOBuffer.mk [65; 0; 0; 0] 1 0 1).

(** * Properties *)

(** ** Arithmetic of the fixed-width types *)

Lemma wrap_small (w x : Z) : 0 <= x < 2 ^ w -> wrap w x = x.
Proof. intros Hx. unfold wrap. now apply Z.mod_small. Qed.

Lemma wrap_range (w x : Z) : 0 <= w -> 0 <= wrap w x < 2 ^ w.
Proof.
  intros Hw. unfold wrap. apply Z.mod_pos_bound.
  now apply Z.pow_pos_nonneg.
Qed.

Lemma wrap_testbit (w x i : Z) :
  0 <= w -> Z.testbit (wrap w x) i = (i <? w) && Z.testbit x i.
Proof.
  intros Hw. unfold wrap.
  destruct (Z.ltb_spec i w) as [Hlt | Hge]; simpl.
  - destruct (Z.neg_nonneg_cases i) as [Hneg | Hpos].
    + now rewrite !Z.testbit_neg_r.
    + apply Z.mod_pow2_bits_low. lia.
  - apply Z.mod_pow2_bits_high. lia.
Qed.

Lemma uint8_neq_m1 (x : Z) : (uint8 x =? -1) = false.
Proof.
  apply Z.eqb_neq. pose proof (wrap_range 8 x). unfold uint8. lia.
Qed.

Lemma uint8_idem (x : Z) : wrap 8 (uint8 x) = uint8 x.
Proof. unfold uint8, wrap. apply Z.mod_mod. lia. Qed.

Lemma _BV_testbit (b i : Z) :
  0 <= b -> Z.testbit (_BV b) i = (i =? b).
Proof.
  intros Hb. unfold _BV. rewrite Z.shiftl_1_l.
  destruct (Z.eqb_spec i b) as [-> | Hne].
  - now apply Z.pow2_bits_true.
  - apply Z.pow2_bits_false. congruence.
Qed.

(** ** The register file *)

Lemma regs_set_regs (p : port) (u : usart) (m : machine) :
  regs p (set_regs p u m) = u.
Proof. now destruct p. Qed.

Lemma regs_set_regs_other (p q : port) (u : usart) (m : machine) :
  p <> q -> regs q (set_regs p u m) = regs q m.
Proof. destruct p, q; intros Hne; try reflexivity; congruence. Qed.

Lemma regs_emit (p : port) (e : event) (m : machine) :
  regs p (emit e m) = regs p m.
Proof. now destruct p. Qed.

Lemma trace_set_regs (p : port) (u : usart) (m : machine) :
  trace (set_regs p u m) = trace m.
Proof. now destruct p. Qed.

(** ** The circular buffer *)

Lemma putchar_wf (c : Z) (b : IOBuffer.t) :
  IOBuffer.wf b -> IOBuffer.wf (snd (IOBuffer.putchar c b)).
Proof.
  intros (Hcount & Hhead & Htail).
  unfold IOBuffer.putchar, IOBuffer.is_full.
  destruct (Nat.eqb_spec (IOBuffer.count b) (IOBuffer.capacity b)) as [Heq | Hne];
    [now repeat split |].
  unfold IOBuffer.wf, IOBuffer.capacity in *. cbn.
  rewrite length_insert.
  assert (Hpos : length (IOBuffer.storage b) <> 0%nat) by lia.
  repeat split.
  - lia.
  - left. now apply Nat.mod_upper_bound.
  - destruct Htail as [Htail | Hzero]; [now left | contradiction].
Qed.

Lemma getchar_wf (b : IOBuffer.t) :
  IOBuffer.wf b -> IOBuffer.wf (snd (IOBuffer.getchar b)).
Proof.
  intros (Hcount & Hhead & Htail).
  unfold IOBuffer.getchar, IOBuffer.is_empty.
  destruct (Nat.eqb_spec (IOBuffer.count b) 0) as [Heq | Hne];
    [now repeat split |].
  unfold IOBuffer.wf, IOBuffer.capacity in *. cbn.
  assert (Hpos : length (IOBuffer.storage b) <> 0%nat) by lia.
  repeat split.
  - lia.
  - destruct Hhead as [Hhead | Hzero]; [now left | contradiction].
  - left. now apply Nat.mod_upper_bound.
Qed.

Lemma flush_wf (b : IOBuffer.t) : IOBuffer.wf (IOBuffer.flush b).
Proof.
  unfold IOBuffer.wf, IOBuffer.flush, IOBuffer.capacity. cbn.
  repeat split; lia.
Qed.

(** A byte put into an empty buffer is the byte the next [getchar]
    returns. *)
Lemma getchar_putchar_flush (c : Z) (b : IOBuffer.t) :
  IOBuffer.capacity b <> 0%nat ->
  fst (IOBuffer.getchar (snd (IOBuffer.putchar c (IOBuffer.flush b)))) = uint8 c.
Proof.
  intros Hcap. unfold IOBuffer.putchar, IOBuffer.is_full, IOBuffer.capacity in *.
  cbn [IOBuffer.flush IOBuffer.count IOBuffer.storage IOBuffer.head IOBuffer.tail].
  destruct (Nat.eqb_spec 0 (length (IOBuffer.storage b))) as [Heq | _]; [congruence |].
  unfold IOBuffer.getchar, IOBuffer.is_empty. cbn.
  rewrite list_lookup_insert_eq by lia. cbn.
  unfold uint8, wrap. apply Z.mod_mod. lia.
Qed.

(** ** The divisor *)

(** Where the quotient is at least 1 and the result fits 16 bits, the
    machine computation is the integer formula [F / (B * k) - 1]. *)
Lemma divisor_exact (F k B : Z) :
  0 <= F < 2 ^ 32 ->
  0 <= F / (B * k) - 1 < 2 ^ 16 ->
  Mega.divisor F k B = Some (F / (B * k) - 1).
Proof.
  intros HF HD.
  assert (Hpos : 0 < B * k <= F).
  { destruct (Z_lt_le_dec 0 (B * k)) as [Hp | Hn].
    - split; [assumption |].
      destruct (Z_lt_le_dec F (B * k)) as [Hlt | Hle]; [| assumption].
      rewrite Z.div_small in HD by lia. lia.
    - destruct (Z.eq_dec (B * k) 0) as [Hz | Hnz].
      + rewrite Hz, Z.div_0_r in HD. lia.
      + assert (F / (B * k) <= 0) by (Z.div_mod_to_equations; nia). lia. }
  unfold Mega.divisor, udiv32, uint32, uint16.
  rewrite (wrap_small 32 (B * k)) by lia.
  rewrite (wrap_small 32 F) by lia.
  destruct (Z.eqb_spec (B * k) 0) as [Hz | _]; [lia |].
  rewrite (wrap_small 32) by lia.
  now rewrite (wrap_small 16) by lia.
Qed.

Lemma divisor_range (F k B s : Z) :
  Mega.divisor F k B = Some s -> 0 <= s < 2 ^ 16.
Proof.
  unfold Mega.divisor. destruct (udiv32 F (B * k)); [| discriminate].
  intros [= <-]. now apply wrap_range.
Qed.

(** ** [begin] *)

(** The value [begin] stores in UCSRnB. *)
Lemma UCSRnB_enable :
  wrap 8 (Z.lor (Z.lor (_BV AVR.RXCIE0) (_BV AVR.RXEN0)) (_BV AVR.TXEN0)) = 152.
Proof. reflexivity. Qed.

(** The double-rate path: the divisor of the first formula is at most 4095. *)
Lemma begin_double_rate (F : Z) (self : Mega.UART) (B fmt : Z) (m : machine) (s : Z) :
  Mega.divisor F 8 B = Some s ->
  s <= 4095 ->
  exists m',
    Mega.begin F self B fmt m = Some (true, m') /\
    regs (Mega.m_port self) m' =
      mk_usart 2 152 (uint8 fmt) s (UDRn (regs (Mega.m_port self) m)) /\
    (forall q, q <> Mega.m_port self -> regs q m' = regs q m) /\
    trace m' = trace m ++ [Store (Mega.m_port self) UCSRA 2;
                           Store (Mega.m_port self) UBRR s;
                           Store (Mega.m_port self) UCSRB 152;
                           Store (Mega.m_port self) UCSRC (uint8 fmt)].
Proof.
  intros Hs Hle.
  pose proof (divisor_range _ _ _ _ Hs) as Hr.
  unfold Mega.begin, bind, lift. rewrite Hs.
  destruct (Z.ltb_spec 4095 s) as [Hgt | _]; [lia |].
  unfold store, ret, width. rewrite UCSRnB_enable, (wrap_small 16 s) by assumption.
  change (wrap 8 (_BV AVR.U2X0)) with 2.
  eexists. split; [reflexivity |].
  destruct self as [p ib ob], m as [a b t]; simpl.
  repeat split.
  - now destruct p.
  - intros q Hq. destruct p, q; try reflexivity; congruence.
  - unfold emit; simpl. destruct p; simpl; now rewrite <- !app_assoc.
Qed.

(** The fallback path: the divisor of the first formula, as the 16-bit
    variable holds it, exceeds 4095.  UCSRnA is not written. *)
Lemma begin_normal_rate (F : Z) (self : Mega.UART) (B fmt : Z) (m : machine) (s8 s : Z) :
  Mega.divisor F 8 B = Some s8 ->
  4095 < s8 ->
  Mega.divisor F 16 B = Some s ->
  exists m',
    Mega.begin F self B fmt m = Some (true, m') /\
    regs (Mega.m_port self) m' =
      mk_usart (UCSRnA (regs (Mega.m_port self) m)) 152 (uint8 fmt) s
               (UDRn (regs (Mega.m_port self) m)) /\
    (forall q, q <> Mega.m_port self -> regs q m' = regs q m) /\
    trace m' = trace m ++ [Store (Mega.m_port self) UBRR s;
                           Store (Mega.m_port self) UCSRB 152;
                           Store (Mega.m_port self) UCSRC (uint8 fmt)].
Proof.
  intros Hs8 Hgt Hs.
  pose proof (divisor_range _ _ _ _ Hs) as Hr.
  unfold Mega.begin, bind, lift. rewrite Hs8.
  destruct (Z.ltb_spec 4095 s8) as [_ | Hle]; [| lia].
  rewrite Hs.
  unfold store, ret, width. rewrite UCSRnB_enable, (wrap_small 16 s) by assumption.
  eexists. split; [reflexivity |].
  destruct self as [p ib ob], m as [a b t]; simpl.
  repeat split.
  - now destruct p.
  - intros q Hq. destruct p, q; try reflexivity; congruence.
  - unfold emit; simpl. destruct p; simpl; now rewrite <- !app_assoc.
Qed.

Lemma divisor_defined (F k B : Z) :
  0 < B < 2 ^ 28 -> 0 < k <= 16 -> exists s, Mega.divisor F k B = Some s.
Proof.
  intros HB Hk. unfold Mega.divisor, udiv32, uint32.
  rewrite (wrap_small 32 (B * k)) by nia.
  destruct (Z.eqb_spec (B * k) 0) as [Hz | _]; [nia |].
  eauto.
Qed.

(** C1. For every call of the hardware [begin]: when the divisor of the
    first formula, as held in the 16-bit variable [setting], does not exceed
    4095, it is the value stored in UBRRn and UCSRnA is set to the
    double-speed bit.  For a clock [F] below [2 ^ 32] and a baud rate [B]
    for which [F / (B * 8) - 1] lies in the range [0 .. 4095] of the
    register, that divisor is the integer quotient [F / (B * 8) - 1].  For
    [F = 16000000] and [B = 9600] the divisor is 207 and double speed is
    selected. *)
Theorem begin_double_speed_divisor :
  (forall (F : Z) (self : Mega.UART) (B fmt : Z) (m : machine) (s : Z),
      Mega.divisor F 8 B = Some s ->
      s <= 4095 ->
      exists m',
        Mega.begin F self B fmt m = Some (true, m') /\
        UBRRn (regs (Mega.m_port self) m') = s /\
        UCSRnA (regs (Mega.m_port self) m') = _BV AVR.U2X0) /\
  (forall (F : Z) (self : Mega.UART) (B fmt : Z) (m : machine),
      0 <= F < 2 ^ 32 ->
      0 <= F / (B * 8) - 1 <= 4095 ->
      exists m',
        Mega.begin F self B fmt m = Some (true, m') /\
        UBRRn (regs (Mega.m_port self) m') = F / (B * 8) - 1 /\
        UCSRnA (regs (Mega.m_port self) m') = _BV AVR.U2X0) /\
  (forall (self : Mega.UART) (fmt : Z) (m : machine),
      exists m',
        Mega.begin 16000000 self 9600 fmt m = Some (true, m') /\
        UBRRn (regs (Mega.m_port self) m') = 207 /\
        Z.testbit (UCSRnA (regs (Mega.m_port self) m')) AVR.U2X0 = true).
Proof.
  assert (Hcode : forall F self B fmt m s,
             Mega.divisor F 8 B = Some s -> s <= 4095 ->
             exists m',
               Mega.begin F self B fmt m = Some (true, m') /\
               UBRRn (regs (Mega.m_port self) m') = s /\
               UCSRnA (regs (Mega.m_port self) m') = _BV AVR.U2X0).
  { intros F self B fmt m s Hs Hle.
    destruct (begin_double_rate F self B fmt m s Hs Hle) as (m' & Hrun & Hregs & _).
    exists m'. rewrite Hregs. now repeat split. }
  split; [exact Hcode | split].
  - intros F self B fmt m HF HD.
    apply Hcode; [| lia].
    apply divisor_exact; [assumption | lia].
  - intros self fmt m.
    destruct (Hcode 16000000 self 9600 fmt m 207) as (m' & Hrun & Hubrr & Hucsra);
      [reflexivity | lia |].
    exists m'. rewrite Hucsra. now repeat split.
Qed.

(** C1 at 16 MHz and 9600 baud, on the port [uart_0] after reset. *)
Lemma begin_double_speed_divisor_witness :
  exists m',
    Mega.begin 16000000 uart_0 9600 6 power_on = Some (true, m') /\
    UBRRn (regs (Mega.m_port uart_0) m') = 16000000 / (9600 * 8) - 1 /\
    UCSRnA (regs (Mega.m_port uart_0) m') = _BV AVR.U2X0.
Proof.
  apply (proj1 (proj2 begin_double_speed_divisor)).
  - split; [discriminate | reflexivity].
  - split; discriminate.
Defined.

(** C2, as stated, fails.  At 16 MHz a baud rate of 1 is not representable
    in either mode: the single-speed divisor [16000000 / 16 - 1 = 999999]
    exceeds 4095.  [begin] returns success all the same and programs UBRRn
    with the low 16 bits, 16959.  No call returns failure. *)
Lemma begin_unrepresentable_succeeds :
  4095 < 16000000 / (1 * 16) - 1 /\
  (exists m',
      Mega.begin 16000000 uart_0 1 6 power_on = Some (true, m') /\
      UBRRn (regs USART0 m') = 16959) /\
  (forall F self B fmt m m', Mega.begin F self B fmt m <> Some (false, m')).
Proof.
  split; [reflexivity | split].
  - eexists. split; reflexivity.
  - intros F self B fmt m m'. unfold Mega.begin, bind, lift, store, ret.
    destruct (Mega.divisor F 8 B) as [s8 |]; [| discriminate].
    destruct (4095 <? s8).
    + destruct (Mega.divisor F 16 B); discriminate.
    + discriminate.
Qed.

(** C2, amended.  [begin] has no failure path and no check of the range of
    the divisor.  For every clock and every baud rate [B] with
    [0 < B < 2 ^ 28] (so that neither division is by zero) it returns
    success, never failure, and programs UBRRn with the 16-bit divisor it
    selected: the value of the first formula when that is at most 4095
    (with U2X set), otherwise the value of the second formula, whatever
    its size (UCSRnA untouched).  In integers, for a clock below [2 ^ 32]:
    when the single-speed divisor [F / (B * 16) - 1] exceeds 4095, so that
    the rate is not representable, and [F / (B * 8) - 1] fits 16 bits,
    UBRRn holds [F / (B * 16) - 1], a value above 4095. *)
Theorem begin_always_succeeds (F : Z) (self : Mega.UART) (B fmt : Z) (m : machine) :
  0 < B < 2 ^ 28 ->
  let p := Mega.m_port self in
  exists s8 m',
    Mega.divisor F 8 B = Some s8 /\
    Mega.begin F self B fmt m = Some (true, m') /\
    (forall r m'', Mega.begin F self B fmt m = Some (r, m'') -> r = true) /\
    (s8 <= 4095 ->
       UBRRn (regs p m') = s8 /\ UCSRnA (regs p m') = _BV AVR.U2X0) /\
    (4095 < s8 ->
       exists s16,
         Mega.divisor F 16 B = Some s16 /\
         UBRRn (regs p m') = s16 /\ UCSRnA (regs p m') = UCSRnA (regs p m)) /\
    (0 <= F < 2 ^ 32 -> 4095 < F / (B * 16) - 1 -> F / (B * 8) - 1 < 2 ^ 16 ->
       UBRRn (regs p m') = F / (B * 16) - 1 /\ 4095 < UBRRn (regs p m')).
Proof.
  intros HB p. subst p.
  destruct (divisor_defined F 8 B HB) as [s8 Hs8]; [lia |].
  destruct (divisor_defined F 16 B HB) as [s16 Hs16]; [lia |].
  assert (Hrun : exists m',
             Mega.begin F self B fmt m = Some (true, m') /\
             (s8 <= 4095 ->
                UBRRn (regs (Mega.m_port self) m') = s8 /\
                UCSRnA (regs (Mega.m_port self) m') = _BV AVR.U2X0) /\
             (4095 < s8 ->
                UBRRn (regs (Mega.m_port self) m') = s16 /\
                UCSRnA (regs (Mega.m_port self) m') = UCSRnA (regs (Mega.m_port self) m))).
  { destruct (Z_lt_le_dec 4095 s8) as [Hgt | Hle].
    - destruct (begin_normal_rate F self B fmt m s8 s16 Hs8 Hgt Hs16)
        as (m' & Hrun & Hregs & _).
      exists m'. split; [exact Hrun |]. rewrite Hregs. cbn [UBRRn UCSRnA].
      split; [intros; lia | intros _; now split].
    - destruct (begin_double_rate F self B fmt m s8 Hs8 Hle)
        as (m' & Hrun & Hregs & _).
      exists m'. split; [exact Hrun |]. rewrite Hregs. cbn [UBRRn UCSRnA].
      split; [intros _; now split | intros; lia]. }
  destruct Hrun as (m' & Hrun & Hdouble & Hnormal).
  exists s8, m'.
  split; [exact Hs8 |]. split; [exact Hrun |].
  split; [intros r m'' Hr; congruence |].
  split; [exact Hdouble |].
  split; [intros Hgt; exists s16; split; [exact Hs16 | now apply Hnormal] |].
  intros HF H16 H8.
  assert (Hhalf : F / (B * 16) = F / (B * 8) / 2).
  { rewrite Z.div_div by lia. f_equal. lia. }
  assert (Hq : 2 * (F / (B * 16)) <= F / (B * 8)).
  { rewrite Hhalf. apply Z.mul_div_le. lia. }
  assert (Hs8' : Mega.divisor F 8 B = Some (F / (B * 8) - 1))
    by (apply divisor_exact; [assumption | lia]).
  assert (Hs16' : Mega.divisor F 16 B = Some (F / (B * 16) - 1))
    by (apply divisor_exact; [assumption | lia]).
  assert (Es8 : s8 = F / (B * 8) - 1) by congruence.
  assert (Es16 : s16 = F / (B * 16) - 1) by congruence.
  destruct Hnormal as [Hubrr _]; [lia |].
  rewrite Hubrr, Es16. split; [reflexivity | lia].
Qed.

(** C2 at 16 MHz and 100 baud: neither mode represents the rate (the
    divisors are 19999 and 9999); [begin] returns success with 9999 in
    UBRR0 and UCSR0A as it was. *)
Lemma begin_always_succeeds_witness :
  exists m',
    Mega.begin 16000000 uart_0 100 6 power_on = Some (true, m') /\
    UBRRn (usart0 m') = 16000000 / (100 * 16) - 1 /\
    4095 < UBRRn (usart0 m') /\
    UCSRnA (usart0 m') = UCSRnA (usart0 power_on).
Proof.
  destruct (begin_always_succeeds 16000000 uart_0 100 6 power_on)
    as (s8 & m' & Hs8 & Hrun & _ & _ & Hnormal & Hint);
    [split; reflexivity |].
  assert (Es8 : s8 = 19999) by (vm_compute in Hs8; congruence).
  destruct Hnormal as (s16 & _ & _ & Hucsra); [rewrite Es8; reflexivity |].
  destruct Hint as (Hubrr & Hgt);
    [split; [discriminate | reflexivity] | reflexivity | reflexivity |].
  exists m'. repeat split; assumption.
Defined.

(** C6.  The fallback branch does not write UCSRnA, so a double-speed bit
    that is set before the call is still set after it.  At 16 MHz:
    [begin(9600)] sets U2X; a following [begin(300)] takes the fallback
    ([16000000 / (300 * 8) - 1 = 6665 > 4095]), stores the single-speed
    divisor 3332 and leaves U2X set.  Also, the comparison is made on the
    16-bit variable: for a baud rate of 30 the quotient
    [16000000 / (30 * 8) - 1 = 66665] exceeds 4095, its low 16 bits, 1129,
    do not, and [begin] selects double speed with divisor 1129. *)
Theorem begin_fallback_leaves_U2X :
  (forall (self : Mega.UART) (fmt : Z) (m : machine),
      exists m1 m2,
        Mega.begin 16000000 self 9600 fmt m = Some (true, m1) /\
        Z.testbit (UCSRnA (regs (Mega.m_port self) m1)) AVR.U2X0 = true /\
        4095 < 16000000 / (300 * 8) - 1 /\
        Mega.begin 16000000 self 300 fmt m1 = Some (true, m2) /\
        UBRRn (regs (Mega.m_port self) m2) = 16000000 / (300 * 16) - 1 /\
        Z.testbit (UCSRnA (regs (Mega.m_port self) m2)) AVR.U2X0 = true) /\
  (forall (self : Mega.UART) (fmt : Z) (m : machine),
      exists m',
        4095 < 16000000 / (30 * 8) - 1 /\
        Mega.begin 16000000 self 30 fmt m = Some (true, m') /\
        UBRRn (regs (Mega.m_port self) m') = 1129 /\
        Z.testbit (UCSRnA (regs (Mega.m_port self) m')) AVR.U2X0 = true).
Proof.
  split.
  - intros self fmt m.
    destruct (begin_double_rate 16000000 self 9600 fmt m 207) as (m1 & Hrun1 & Hregs1 & _);
      [reflexivity | lia |].
    destruct (begin_normal_rate 16000000 self 300 fmt m1 6665 3332)
      as (m2 & Hrun2 & Hregs2 & _); [reflexivity | lia | reflexivity |].
    exists m1, m2. rewrite Hregs2, Hregs1. simpl.
    repeat split; assumption.
  - intros self fmt m.
    destruct (begin_double_rate 16000000 self 30 fmt m 1129) as (m' & Hrun & Hregs & _);
      [reflexivity | lia |].
    exists m'. rewrite Hregs. now repeat split.
Qed.

(** ** [end] *)

(** The mask that [end] clears in UCSRnB. *)
Lemma UCSRnB_disable :
  Z.lor (Z.lor (_BV AVR.RXCIE0) (_BV AVR.RXEN0)) (_BV AVR.TXEN0) = 152.
Proof. reflexivity. Qed.

Lemma end_run (self : Mega.UART) (m : machine) :
  let p := Mega.m_port self in
  let v := uint8 (Z.land (UCSRnB (regs p m)) (Z.lnot 152)) in
  exists m',
    Mega.end_ self m =
      Some ((true, Mega.mk_UART p (IOBuffer.flush (Mega.m_ibuf self))
                                  (IOBuffer.flush (Mega.m_obuf self))), m') /\
    regs p m' = write_reg UCSRB v (regs p m) /\
    (forall q, q <> p -> regs q m' = regs q m) /\
    trace m' = trace m ++ [Load p UCSRB; Store p UCSRB v; Flush p Output; Flush p Input].
Proof.
  intros p v. unfold Mega.end_, bind, load, store, note, ret.
  rewrite UCSRnB_disable. fold p.
  eexists. split; [reflexivity |].
  subst v. destruct m as [a b t]. unfold uint8.
  destruct p; simpl; repeat split; try (now rewrite <- !app_assoc);
    intros q Hq; destruct q; try reflexivity; congruence.
Qed.

(** Bits of UCSRnB after [end]: the three bits of the mask are clear, every
    other bit is as before. *)
Lemma end_UCSRnB_bits (b i : Z) :
  0 <= i < 8 ->
  Z.testbit (uint8 (Z.land b (Z.lnot 152))) i =
    Z.testbit b i && negb ((i =? AVR.RXCIE0) || (i =? AVR.RXEN0) || (i =? AVR.TXEN0)).
Proof.
  intros Hi. unfold uint8. rewrite wrap_testbit by lia.
  rewrite Z.land_spec, Z.lnot_spec by lia.
  destruct (Z.ltb_spec i 8) as [_ | Hge]; [| lia]. simpl.
  f_equal. f_equal.
  assert (Hcases : i = 0 \/ i = 1 \/ i = 2 \/ i = 3 \/ i = 4 \/ i = 5 \/ i = 6 \/ i = 7) by lia.
  destruct Hcases as [-> | [-> | [-> | [-> | [-> | [-> | [-> | ->]]]]]]]; reflexivity.
Qed.

(** A write that finds room in the output buffer returns at once, with the
    transmit-buffer-empty interrupt enabled. *)
Lemma putchar_enables_UDRIE (wake : Mega.UART -> M Mega.UART) (fuel : nat)
      (self : Mega.UART) (c : Z) (m : machine) :
  IOBuffer.count (Mega.m_obuf self) <> IOBuffer.capacity (Mega.m_obuf self) ->
  exists self' m',
    Mega.putchar wake fuel self c m = Some ((Some (Z.land c 255), self'), m') /\
    Mega.m_port self' = Mega.m_port self /\
    Z.testbit (UCSRnB (regs (Mega.m_port self) m')) AVR.UDRIE0 = true.
Proof.
  intros Hroom.
  assert (Hrun : Mega.putchar wake fuel self c m =
                 bind (load (Mega.m_port self) UCSRB)
                      (fun b =>
                         bind (store (Mega.m_port self) UCSRB (Z.lor b (_BV AVR.UDRIE0)))
                              (fun _ =>
                                 ret (Some (Z.land c 255),
                                      Mega.mk_UART (Mega.m_port self) (Mega.m_ibuf self)
                                        (snd (IOBuffer.putchar c (Mega.m_obuf self))))))
                      (emit (Putchar (Mega.m_port self) Output c) m)).
  { destruct fuel; cbn [Mega.putchar];
      unfold Mega.obuf_putchar, IOBuffer.putchar, IOBuffer.is_full;
      apply Nat.eqb_neq in Hroom; rewrite Hroom;
      unfold bind at 1 2; unfold note, ret at 1;
      cbn -[bind load store ret uint8 Z.land Z.lor _BV Z.eqb];
      rewrite uint8_neq_m1; reflexivity. }
  rewrite Hrun. unfold bind, load, store, ret.
  eexists _, _. split; [reflexivity |]. split; [reflexivity |].
  cbn [fst snd]. rewrite regs_emit, regs_set_regs. cbn [write_reg UCSRnB width].
  rewrite wrap_testbit, Z.lor_spec, _BV_testbit by (unfold AVR.UDRIE0; lia).
  rewrite Z.eqb_refl. now rewrite orb_true_r.
Qed.

(** C3.  [end] clears RXCIE, RXEN and TXEN in UCSRnB and flushes both
    buffers, but it does not touch UDRIE: the transmit-buffer-empty
    interrupt enable is after the call what it was before.  On the port
    [uart_0], opened after reset with [begin(9600)] at 16 MHz and with one
    character written (UCSR0B = 0xB8), [end] leaves UCSR0B = 0x20, the
    transmit-buffer-empty interrupt still enabled. *)
Theorem end_leaves_UDRIE :
  (forall (self : Mega.UART) (m : machine),
      exists self' m',
        Mega.end_ self m = Some ((true, self'), m') /\
        Z.testbit (UCSRnB (regs (Mega.m_port self) m')) AVR.UDRIE0 =
          Z.testbit (UCSRnB (regs (Mega.m_port self) m)) AVR.UDRIE0 /\
        Z.testbit (UCSRnB (regs (Mega.m_port self) m')) AVR.RXCIE0 = false /\
        Z.testbit (UCSRnB (regs (Mega.m_port self) m')) AVR.RXEN0 = false /\
        Z.testbit (UCSRnB (regs (Mega.m_port self) m')) AVR.TXEN0 = false /\
        IOBuffer.count (Mega.m_ibuf self') = 0%nat /\
        IOBuffer.count (Mega.m_obuf self') = 0%nat) /\
  (exists m1 self1 m2 self2 m3,
      Mega.begin 16000000 uart_0 9600 6 power_on = Some (true, m1) /\
      Mega.putchar (fun u => ret u) 0 uart_0 65 m1 = Some ((Some 65, self1), m2) /\
      UCSRnB (usart0 m2) = 184 /\
      Mega.end_ self1 m2 = Some ((true, self2), m3) /\
      UCSRnB (usart0 m3) = 32 /\
      Z.testbit (UCSRnB (usart0 m3)) AVR.UDRIE0 = true).
Proof.
  split.
  - intros self m.
    destruct (end_run self m) as (m' & Hrun & Hregs & _).
    eexists _, m'. split; [exact Hrun |].
    rewrite Hregs. cbn [write_reg UCSRnB].
    rewrite !end_UCSRnB_bits by (unfold AVR.UDRIE0, AVR.RXCIE0, AVR.RXEN0, AVR.TXEN0; lia).
    repeat split; try reflexivity.
    + cbn. now rewrite andb_true_r.
    + cbn. now rewrite andb_false_r.
    + cbn. now rewrite andb_false_r.
    + cbn. now rewrite andb_false_r.
  - eexists _, _, _, _, _. repeat split; reflexivity.
Qed.

(** What does hold of [end]: a second call changes neither the registers
    nor the buffers. *)
Lemma end_idempotent (self self1 self2 : Mega.UART) (m m1 m2 : machine) :
  Mega.end_ self m = Some ((true, self1), m1) ->
  Mega.end_ self1 m1 = Some ((true, self2), m2) ->
  self2 = self1 /\ forall q, regs q m2 = regs q m1.
Proof.
  intros H1 H2.
  destruct (end_run self m) as (m1' & Hrun1 & Hregs1 & Hoth1 & _).
  rewrite H1 in Hrun1. injection Hrun1 as Hself1 Hm1. subst m1'.
  destruct (end_run self1 m1) as (m2' & Hrun2 & Hregs2 & Hoth2 & _).
  rewrite H2 in Hrun2. injection Hrun2 as Hself2 Hm2. subst m2'.
  assert (Hp : Mega.m_port self1 = Mega.m_port self) by now rewrite Hself1.
  split.
  - rewrite Hself2, Hself1. reflexivity.
  - intros q. rewrite Hp in *.
    destruct (decide (q = Mega.m_port self)) as [-> | Hne].
    + rewrite Hregs2, Hregs1. cbn [write_reg UCSRnA UCSRnB UCSRnC UBRRn UDRn].
      f_equal. apply Z.bits_inj'. intros i Hi.
      unfold uint8. rewrite !wrap_testbit, !Z.land_spec, !wrap_testbit, !Z.land_spec by lia.
      destruct (i <? 8), (Z.testbit (UCSRnB (regs (Mega.m_port self) m)) i),
        (Z.testbit (Z.lnot 152) i); reflexivity.
    + now apply Hoth2.
Qed.

(** ** The interrupt handlers *)

(** Clearing one bit of an 8-bit register. *)
Lemma bit_clear_bits (v b i : Z) :
  0 <= b < 8 -> 0 <= i < 8 ->
  Z.testbit (wrap 8 (Z.land v (Z.lnot (_BV b)))) i =
    Z.testbit v i && negb (i =? b).
Proof.
  intros Hb Hi. rewrite wrap_testbit by lia.
  rewrite Z.land_spec, Z.lnot_spec, _BV_testbit by lia.
  destruct (Z.ltb_spec i 8); [reflexivity | lia].
Qed.

(** C4.  The transmit-buffer-empty handler of channel 0 always returns.
    When the output buffer is not empty it removes exactly one byte, the one
    at [tail], and stores it to UDR0, leaving the control registers alone.
    When the output buffer is empty it stores nothing to UDR0, leaves the
    buffer as it is and clears UDRIE in UCSR0B, every other bit of the
    register unchanged. *)
Theorem ISR_USART_UDRE_spec (g : Mega.globals) (m : machine) :
  let self := Mega.uart g in
  let ob := Mega.m_obuf self in
  exists g' m',
    Mega.ISR_USART_UDRE g m = Some (g', m') /\
    Mega.uart1 g' = Mega.uart1 g /\
    Mega.m_port (Mega.uart g') = Mega.m_port self /\
    Mega.m_ibuf (Mega.uart g') = Mega.m_ibuf self /\
    usart1 m' = usart1 m /\
    let ob' := Mega.m_obuf (Mega.uart g') in
    (IOBuffer.count ob <> 0%nat ->
       let c := uint8 (default 0 (IOBuffer.storage ob !! IOBuffer.tail ob)) in
       IOBuffer.count ob' = Nat.pred (IOBuffer.count ob) /\
       IOBuffer.tail ob' = ((IOBuffer.tail ob + 1) mod IOBuffer.capacity ob)%nat /\
       IOBuffer.head ob' = IOBuffer.head ob /\
       IOBuffer.storage ob' = IOBuffer.storage ob /\
       usart0 m' = usart0 m /\
       trace m' = trace m ++ [Getchar (Mega.m_port self) Output; Store USART0 UDR c]) /\
    (IOBuffer.count ob = 0%nat ->
       let v := wrap 8 (Z.land (UCSRnB (usart0 m)) (Z.lnot (_BV AVR.UDRIE0))) in
       ob' = ob /\
       usart0 m' = write_reg UCSRB v (usart0 m) /\
       Z.testbit (UCSRnB (usart0 m')) AVR.UDRIE0 = false /\
       (forall i, 0 <= i < 8 -> i <> AVR.UDRIE0 ->
                  Z.testbit (UCSRnB (usart0 m')) i = Z.testbit (UCSRnB (usart0 m)) i) /\
       trace m' = trace m ++ [Getchar (Mega.m_port self) Output;
                              Load USART0 UCSRB; Store USART0 UCSRB v]).
Proof.
  intros self ob.
  unfold Mega.ISR_USART_UDRE, Mega.obuf_getchar, IOBuffer.getchar, IOBuffer.is_empty.
  fold self. fold ob.
  destruct (Nat.eqb_spec (IOBuffer.count ob) 0) as [Hz | Hnz].
  - (* empty: the interrupt is disabled *)
    unfold bind, note, ret, Mega.bit_clear, load, store.
    cbn -[Z.testbit wrap Z.land Z.lnot _BV].
    eexists _, _. split; [reflexivity |].
    cbn -[Z.testbit wrap Z.land Z.lnot _BV].
    do 4 (split; [reflexivity |]).
    split; [intros Hne; contradiction |].
    intros _.
    split; [now destruct self |].
    split; [reflexivity |].
    split; [| split].
    + rewrite bit_clear_bits by (unfold AVR.UDRIE0; lia).
      rewrite Z.eqb_refl. apply andb_false_r.
    + intros i Hi Hne. rewrite bit_clear_bits by (unfold AVR.UDRIE0; lia).
      apply Z.eqb_neq in Hne. rewrite Hne. apply andb_true_r.
    + now rewrite <- !app_assoc.
  - (* not empty: one byte to the data register *)
    unfold bind, note, ret, store.
    cbn -[Z.testbit wrap Z.land Z.lnot _BV uint8].
    rewrite uint8_neq_m1.
    cbn -[Z.testbit wrap Z.land Z.lnot _BV uint8].
    rewrite uint8_idem.
    eexists _, _. split; [reflexivity |].
    cbn -[Z.testbit wrap Z.land Z.lnot _BV uint8].
    do 4 (split; [reflexivity |]).
    split; [| intros Hz; contradiction].
    intros _.
    do 4 (split; [reflexivity |]).
    split; [now destruct m |].
    now rewrite <- !app_assoc.
Qed.

(** C4 with the byte 0x41 waiting: it goes to UDR0 and the buffer is empty
    afterwards. *)
Lemma ISR_USART_UDRE_spec_witness :
  exists g' m',
    Mega.ISR_USART_UDRE (Mega.mk_globals uart_pending None) open_machine = Some (g', m') /\
    IOBuffer.count (Mega.m_obuf (Mega.uart g')) = 0%nat /\
    IOBuffer.tail (Mega.m_obuf (Mega.uart g')) = 1%nat /\
    usart0 m' = usart0 open_machine /\
    trace m' = [Getchar USART0 Output; Store USART0 UDR 65].
Proof.
  destruct (ISR_USART_UDRE_spec (Mega.mk_globals uart_pending None) open_machine)
    as (g' & m' & Hrun & _ & _ & _ & _ & Hsome & _).
  destruct Hsome as (Hcount & Htail & _ & _ & Hregs & Htrace); [discriminate |].
  exists g', m'. repeat split; assumption.
Defined.

(** C7.  When the input buffer is full, the receive handler of channel 0
    reads the data register and offers the byte to the buffer, which refuses
    it: the handler returns with the buffer (storage, head, tail and count)
    and every register as they were. *)
Theorem ISR_USART_RX_drops_when_full (g : Mega.globals) (m : machine) :
  let ib := Mega.m_ibuf (Mega.uart g) in
  IOBuffer.count ib = IOBuffer.capacity ib ->
  exists g' m',
    Mega.ISR_USART_RX g m = Some (g', m') /\
    g' = g /\
    IOBuffer.storage (Mega.m_ibuf (Mega.uart g')) = IOBuffer.storage ib /\
    IOBuffer.head (Mega.m_ibuf (Mega.uart g')) = IOBuffer.head ib /\
    IOBuffer.tail (Mega.m_ibuf (Mega.uart g')) = IOBuffer.tail ib /\
    IOBuffer.count (Mega.m_ibuf (Mega.uart g')) = IOBuffer.count ib /\
    usart0 m' = usart0 m /\
    usart1 m' = usart1 m /\
    trace m' = trace m ++ [Load USART0 UDR;
                           Putchar (Mega.m_port (Mega.uart g)) Input (UDRn (usart0 m))].
Proof.
  intros ib Hfull.
  unfold Mega.ISR_USART_RX, Mega.ibuf_putchar, IOBuffer.putchar, IOBuffer.is_full.
  fold ib. rewrite Hfull, Nat.eqb_refl.
  unfold bind, load, note, ret. cbn.
  eexists _, _. split; [reflexivity |].
  assert (Hg : Mega.mk_globals
                 (Mega.mk_UART (Mega.m_port (Mega.uart g)) ib (Mega.m_obuf (Mega.uart g)))
                 (Mega.uart1 g) = g).
  { subst ib. destruct g as [[p i o] u1]. reflexivity. }
  rewrite Hg. cbn.
  repeat split; try reflexivity.
  - exact Hfull.
  - now rewrite <- app_assoc.
Qed.

(** C7 with a full buffer of four bytes and 0x5A in the data register. *)
Lemma ISR_USART_RX_drops_when_full_witness :
  exists g' m',
    Mega.ISR_USART_RX (Mega.mk_globals uart_full None) open_machine = Some (g', m') /\
    Mega.m_ibuf (Mega.uart g') = IOBuffer.mk [1; 2; 3; 4] 0 0 4 /\
    trace m' = [Load USART0 UDR; Putchar USART0 Input 90].
Proof.
  destruct (ISR_USART_RX_drops_when_full (Mega.mk_globals uart_full None) open_machine
              eq_refl)
    as (g' & m' & Hrun & Hg & _ & _ & _ & _ & _ & _ & Htrace).
  subst g'. eexists _, m'.
  split; [exact Hrun | split; [reflexivity | exact Htrace]].
Defined.

(** C8.  With no instance bound to the second channel ([uart1] null), both
    handlers of that channel return at once: the objects, the registers and
    the trace of accesses are those before the interrupt. *)
Theorem ISR_USART1_unbound (g : Mega.globals) (m : machine) :
  Mega.uart1 g = None ->
  Mega.ISR_USART1_UDRE g m = Some (g, m) /\
  Mega.ISR_USART1_RX g m = Some (g, m).
Proof.
  intros Hnull. unfold Mega.ISR_USART1_UDRE, Mega.ISR_USART1_RX.
  rewrite Hnull. split; reflexivity.
Qed.

(** C8 on a machine whose second channel has no instance. *)
Lemma ISR_USART1_unbound_witness :
  Mega.ISR_USART1_UDRE (Mega.mk_globals uart_pending None) open_machine =
    Some (Mega.mk_globals uart_pending None, open_machine) /\
  Mega.ISR_USART1_RX (Mega.mk_globals uart_pending None) open_machine =
    Some (Mega.mk_globals uart_pending None, open_machine).
Proof.
  apply (ISR_USART1_unbound (Mega.mk_globals uart_pending None) open_machine).
  reflexivity.
Defined.

(** ** The bit-banged frame *)

(** C5, as stated, fails.  Configured for 9600 baud and 8 data bits, the
    levels [putchar 0x41] drives are the start bit, the eight data bits
    1,0,0,0,0,0,1,0 and the stop level; the sequence with the seven data
    bits 1,0,0,0,0,1,0 is not what is sent. *)
Lemma putchar_0x41_levels :
  Tiny.begin 9600 8 = Some (true, Tiny.mk_UART 104 8) /\
  Tiny.levels (snd (Tiny.putchar 15 (Tiny.mk_UART 104 8) 65)) =
    [0] ++ [1; 0; 0; 0; 0; 0; 1; 0] ++ [1] /\
  Tiny.levels (snd (Tiny.putchar 15 (Tiny.mk_UART 104 8) 65)) <>
    [0] ++ [1; 0; 0; 0; 0; 1; 0] ++ [1].
Proof.
  split; [reflexivity | split; [reflexivity | discriminate]].
Qed.

(** C5, amended.  Configured for 9600 baud with a format whose data-bit
    field is 8, [putchar 0x41] locks out interrupts, drives the line low for
    one bit period of 104 microseconds, drives the eight bits
    1,0,0,0,0,0,1,0 (0x41 shifted right from its low bit), each for one bit
    period, drives the line high, unlocks, waits 32 bit periods (3328
    microseconds) and returns 0x41. *)
Theorem putchar_0x41_frame (DATA_MASK format : Z) :
  Z.land (uint8 format) DATA_MASK = 8 ->
  exists self,
    Tiny.begin 9600 format = Some (true, self) /\
    Tiny.m_period self = 1000000 / 9600 /\
    Tiny.putchar DATA_MASK self 65 =
      (65,
       [Tiny.Lock;
        Tiny.PinWrite 0; Tiny.Delay 104;
        Tiny.PinWrite 1; Tiny.Delay 104;
        Tiny.PinWrite 0; Tiny.Delay 104;
        Tiny.PinWrite 0; Tiny.Delay 104;
        Tiny.PinWrite 0; Tiny.Delay 104;
        Tiny.PinWrite 0; Tiny.Delay 104;
        Tiny.PinWrite 0; Tiny.Delay 104;
        Tiny.PinWrite 1; Tiny.Delay 104;
        Tiny.PinWrite 0; Tiny.Delay 104;
        Tiny.PinWrite 1;
        Tiny.Unlock;
        Tiny.Delay (32 * 104)]).
Proof.
  intros Hbits. eexists. split; [reflexivity |]. split; [reflexivity |].
  unfold Tiny.putchar. cbn [Tiny.m_format Tiny.m_period]. rewrite Hbits.
  reflexivity.
Qed.

(** C5 with the data-bit count in the low four bits of the format. *)
Lemma putchar_0x41_frame_witness :
  exists self,
    Tiny.begin 9600 8 = Some (true, self) /\
    Tiny.m_period self = 1000000 / 9600 /\
    Tiny.putchar 15 self 65 =
      (65,
       [Tiny.Lock;
        Tiny.PinWrite 0; Tiny.Delay 104;
        Tiny.PinWrite 1; Tiny.Delay 104;
        Tiny.PinWrite 0; Tiny.Delay 104;
        Tiny.PinWrite 0; Tiny.Delay 104;
        Tiny.PinWrite 0; Tiny.Delay 104;
        Tiny.PinWrite 0; Tiny.Delay 104;
        Tiny.PinWrite 0; Tiny.Delay 104;
        Tiny.PinWrite 1; Tiny.Delay 104;
        Tiny.PinWrite 0; Tiny.Delay 104;
        Tiny.PinWrite 1;
        Tiny.Unlock;
        Tiny.Delay (32 * 104)]).
Proof.
  apply (putchar_0x41_frame 15 8). reflexivity.
Defined.

(** The data bits of a frame are the bits of the character, low bit
    first. *)
Lemma send_bits_levels (period : Z) (bits : nat) (c : Z) :
  Tiny.levels (Tiny.send_bits period bits c) =
    map (fun i => Z.b2z (Z.testbit c (Z.of_nat i))) (seq 0 bits).
Proof.
  revert c. induction bits as [| n IH]; intros c; [reflexivity |].
  cbn [Tiny.send_bits Tiny.levels seq map]. f_equal.
  - change (Z.land c 1) with (Z.land c (Z.ones 1)).
    rewrite Z.land_ones by lia. symmetry. apply Z.bit0_mod.
  - rewrite IH, <- seq_shift, map_map. apply map_ext. intros i.
    rewrite Z.shiftr_spec by lia. do 2 f_equal. lia.
Qed.

(** ** The back-light of the MJKDZ adapter *)

(** C9.  [set_backlight(flag)] stores [!flag] in the back-light bit of the
    port, wherever the layout places it, leaves every other bit of the port
    as it was, and writes the resulting port byte to the device. *)
Theorem set_backlight_spec (bt flag : Z) (self : HD44780.MJKDZ) :
  0 <= bt ->
  0 <= flag < 256 ->
  let self' := HD44780.set_backlight bt flag self in
  Z.testbit (HD44780.m_port self') bt = (flag =? 0) /\
  (forall i, i <> bt ->
             Z.testbit (HD44780.m_port self') i = Z.testbit (HD44780.m_port self) i) /\
  HD44780.written self' = HD44780.written self ++ [HD44780.m_port self'].
Proof.
  intros Hbt Hflag self'. subst self'.
  unfold HD44780.set_backlight, HD44780.write, HD44780.set_field, HD44780.lnot_int.
  cbn [HD44780.m_port HD44780.written].
  unfold uint8. rewrite wrap_small by lia.
  destruct (Z.eqb_spec flag 0) as [Hz | Hnz]; cbn [Z.odd].
  - repeat split.
    + now apply Z.setbit_eq.
    + intros i Hi. apply Z.setbit_neq; [assumption | congruence].
  - repeat split.
    + apply Z.clearbit_eq.
    + intros i Hi. apply Z.clearbit_neq. congruence.
Qed.

(** C9 with the back-light in bit 7 and a port of 0xFF: a flag of 1 clears
    bit 7 and 0x7F is written. *)
Lemma set_backlight_spec_witness :
  Z.testbit (HD44780.m_port (HD44780.set_backlight 7 1 (HD44780.mk_MJKDZ 255 []))) 7 = false /\
  (forall i, i <> 7 ->
             Z.testbit (HD44780.m_port (HD44780.set_backlight 7 1 (HD44780.mk_MJKDZ 255 []))) i
             = Z.testbit 255 i) /\
  HD44780.written (HD44780.set_backlight 7 1 (HD44780.mk_MJKDZ 255 [])) = [127].
Proof.
  apply (set_backlight_spec 7 1 (HD44780.mk_MJKDZ 255 [])).
  - discriminate.
  - split; [discriminate | reflexivity].
Defined.

(** ** The dial *)

(** C10.  [on_event] distinguishes only the value CW from every other
    value: any value that is not CW, NONE included, acts as CCW does.  A
    counter-clockwise event leaves a dial that is exactly at [min] alone
    (and [on_change] is not called) and subtracts [step] otherwise; a
    clockwise event leaves a dial that is exactly at [max] alone and adds
    [step] otherwise.  Nothing clamps: with a step of 2, a dial at 9 below a
    maximum of 10 goes to 11, and a [uint16_t] dial at 1 above a minimum of
    0 wraps to 65535. *)
Theorem on_event_spec :
  (forall (T : Type) (EqT : EqDecision T) (NumT : Rotary.Number T)
          (type value : Z) (d : Rotary.Dial T),
      (value <> Rotary.CW ->
         Rotary.on_event type value d = Rotary.on_event type Rotary.CCW d /\
         (Rotary.m_value d = Rotary.m_min d ->
            Rotary.on_event type value d = (d, None)) /\
         (Rotary.m_value d <> Rotary.m_min d ->
            let v := Rotary.sub (Rotary.m_value d) (Rotary.m_step d) in
            Rotary.on_event type value d =
              (Rotary.mk_Dial v (Rotary.m_min d) (Rotary.m_max d) (Rotary.m_step d),
               Some v))) /\
      (value = Rotary.CW ->
         (Rotary.m_value d = Rotary.m_max d ->
            Rotary.on_event type value d = (d, None)) /\
         (Rotary.m_value d <> Rotary.m_max d ->
            let v := Rotary.add (Rotary.m_value d) (Rotary.m_step d) in
            Rotary.on_event type value d =
              (Rotary.mk_Dial v (Rotary.m_min d) (Rotary.m_max d) (Rotary.m_step d),
               Some v)))) /\
  Rotary.on_event 0 Rotary.NONE (Rotary.mk_Dial 5 0 10 2) =
    (Rotary.mk_Dial 3 0 10 2, Some 3) /\
  Rotary.on_event 0 Rotary.CW (Rotary.mk_Dial 9 0 10 2) =
    (Rotary.mk_Dial 11 0 10 2, Some 11) /\
  Rotary.on_event 0 Rotary.CCW (Rotary.mk_Dial 1 0 10 2) =
    (Rotary.mk_Dial 65535 0 10 2, Some 65535).
Proof.
  split; [| repeat split; reflexivity].
  intros T EqT NumT type value d. unfold Rotary.on_event. split.
  - intros Hne. apply Z.eqb_neq in Hne. rewrite Hne.
    change (Rotary.CCW =? Rotary.CW) with false. cbv iota.
    split; [reflexivity |].
    split; intros Hv; [rewrite decide_True by assumption
                      | rewrite decide_False by assumption]; reflexivity.
  - intros ->. rewrite Z.eqb_refl.
    split; intros Hv; [rewrite decide_True by assumption
                      | rewrite decide_False by assumption]; reflexivity.
Qed.

(** C10 for an event value of 7 on a [uint16_t] dial at its minimum. *)
Lemma on_event_spec_witness :
  Rotary.on_event 0 7 (Rotary.mk_Dial 0 0 10 2) =
    Rotary.on_event 0 Rotary.CCW (Rotary.mk_Dial 0 0 10 2) /\
  Rotary.on_event 0 7 (Rotary.mk_Dial 0 0 10 2) = (Rotary.mk_Dial 0 0 10 2, None).
Proof.
  destruct (proj1 on_event_spec Z _ _ 0 7 (Rotary.mk_Dial 0 0 10 2)) as [Hccw _].
  destruct Hccw as (Hsame & Hmin & _); [discriminate |].
  split; [exact Hsame | apply Hmin; reflexivity].
Defined.

(** * Further properties of the drivers *)

(** ** [begin] and [end] *)

(** Every call of [begin] that returns follows one of its two paths. *)
Lemma begin_inv (F : Z) (self : Mega.UART) (B fmt : Z) (m : machine) (r : bool) (m' : machine) :
  Mega.begin F self B fmt m = Some (r, m') ->
  exists s8,
    Mega.divisor F 8 B = Some s8 /\
    ((s8 <= 4095 /\
      regs (Mega.m_port self) m' =
        mk_usart 2 152 (uint8 fmt) s8 (UDRn (regs (Mega.m_port self) m))) \/
     (4095 < s8 /\ exists s16,
         Mega.divisor F 16 B = Some s16 /\
         regs (Mega.m_port self) m' =
           mk_usart (UCSRnA (regs (Mega.m_port self) m)) 152 (uint8 fmt) s16
                    (UDRn (regs (Mega.m_port self) m)))) /\
    (forall q, q <> Mega.m_port self -> regs q m' = regs q m).
Proof.
  intros Hrun.
  destruct (Mega.divisor F 8 B) as [s8 |] eqn:Hs8.
  - exists s8. split; [reflexivity |].
    destruct (Z_lt_le_dec 4095 s8) as [Hgt | Hle].
    + destruct (Mega.divisor F 16 B) as [s16 |] eqn:Hs16.
      * destruct (begin_normal_rate F self B fmt m s8 s16 Hs8 Hgt Hs16)
          as (m1 & Hrun1 & Hregs & Hoth & _).
        rewrite Hrun in Hrun1. injection Hrun1 as _ <-.
        split; [right; eauto | exact Hoth].
      * exfalso. unfold Mega.begin, bind, lift in Hrun. rewrite Hs8 in Hrun.
        destruct (Z.ltb_spec 4095 s8); [| lia].
        rewrite Hs16 in Hrun. discriminate.
    + destruct (begin_double_rate F self B fmt m s8 Hs8 Hle)
        as (m1 & Hrun1 & Hregs & Hoth & _).
      rewrite Hrun in Hrun1. injection Hrun1 as _ <-.
      split; [left; eauto | exact Hoth].
  - exfalso. unfold Mega.begin, bind, lift in Hrun. rewrite Hs8 in Hrun. discriminate.
Qed.

(** X1.  Whatever UCSRnB held, after [begin] it is exactly 0x98: receiver,
    transmitter and receive-complete interrupt enabled, the
    transmit-buffer-empty and transmit-complete interrupts disabled.
    UCSRnC holds the low eight bits of the format, the received byte in the
    data register stays, and the registers of the other channel are not
    touched. *)
Theorem begin_configures (F : Z) (self : Mega.UART) (B fmt : Z) (m : machine)
        (r : bool) (m' : machine) :
  Mega.begin F self B fmt m = Some (r, m') ->
  let p := Mega.m_port self in
  UCSRnB (regs p m') = 152 /\
  (forall i, Z.testbit (UCSRnB (regs p m')) i =
             ((i =? AVR.RXCIE0) || (i =? AVR.RXEN0) || (i =? AVR.TXEN0))) /\
  UCSRnC (regs p m') = uint8 fmt /\
  UDRn (regs p m') = UDRn (regs p m) /\
  (forall q, q <> p -> regs q m' = regs q m).
Proof.
  intros Hrun p. subst p.
  destruct (begin_inv _ _ _ _ _ _ _ Hrun) as (s8 & _ & Hpath & Hoth).
  assert (Hregs : UCSRnB (regs (Mega.m_port self) m') = 152 /\
                  UCSRnC (regs (Mega.m_port self) m') = uint8 fmt /\
                  UDRn (regs (Mega.m_port self) m') = UDRn (regs (Mega.m_port self) m)).
  { destruct Hpath as [(_ & ->) | (_ & s16 & _ & ->)]; now repeat split. }
  destruct Hregs as (Hb & Hc & Hd).
  repeat split; try assumption.
  intros i. rewrite Hb.
  destruct (Z_lt_le_dec i 0) as [Hneg | Hpos].
  - rewrite Z.testbit_neg_r by assumption.
    unfold AVR.RXCIE0, AVR.RXEN0, AVR.TXEN0.
    destruct (Z.eqb_spec i 7), (Z.eqb_spec i 4), (Z.eqb_spec i 3); try lia; reflexivity.
  - destruct (Z_lt_le_dec i 8) as [Hlt | Hge].
    + assert (Hcases : i = 0 \/ i = 1 \/ i = 2 \/ i = 3 \/ i = 4 \/ i = 5 \/ i = 6 \/ i = 7)
        by lia.
      destruct Hcases as [-> | [-> | [-> | [-> | [-> | [-> | [-> | ->]]]]]]]; reflexivity.
    + change 152 with (wrap 8 152). rewrite wrap_testbit by lia.
      destruct (Z.ltb_spec i 8); [lia |].
      unfold AVR.RXCIE0, AVR.RXEN0, AVR.TXEN0.
      destruct (Z.eqb_spec i 7), (Z.eqb_spec i 4), (Z.eqb_spec i 3); try lia; reflexivity.
Qed.

(** X1 on the open channel 0 with the transmit interrupt enabled
    (UCSR0B = 0xB8): after [begin] the register is 0x98. *)
Lemma begin_configures_witness :
  exists m',
    Mega.begin 16000000 uart_0 9600 6 open_machine = Some (true, m') /\
    UCSRnB (usart0 open_machine) = 184 /\
    UCSRnB (usart0 m') = 152 /\
    Z.testbit (UCSRnB (usart0 m')) AVR.UDRIE0 = false /\
    usart1 m' = usart1 open_machine.
Proof.
  eexists. split; [reflexivity |].
  pose proof (begin_configures 16000000 uart_0 9600 6 open_machine true _ eq_refl)
    as (Hb & Hbits & _ & _ & Hoth).
  split; [reflexivity |]. split; [exact Hb |].
  split; [exact (Hbits AVR.UDRIE0) |].
  exact (Hoth USART1 ltac:(discriminate)).
Defined.

(** X2.  The fallback path in integers: for a clock below [2 ^ 32], when
    the first quotient [F / (B * 8) - 1] exceeds 4095 and fits the 16-bit
    variable, [begin] stores [F / (B * 16) - 1] in UBRRn, a value between
    2047 and 32767, and leaves UCSRnA as it was. *)
Theorem begin_fallback_divisor (F : Z) (self : Mega.UART) (B fmt : Z) (m : machine) :
  0 <= F < 2 ^ 32 ->
  4095 < F / (B * 8) - 1 < 2 ^ 16 ->
  exists m',
    Mega.begin F self B fmt m = Some (true, m') /\
    UBRRn (regs (Mega.m_port self) m') = F / (B * 16) - 1 /\
    2047 <= UBRRn (regs (Mega.m_port self) m') <= 32767 /\
    UCSRnA (regs (Mega.m_port self) m') = UCSRnA (regs (Mega.m_port self) m).
Proof.
  intros HF HD.
  assert (Hnz : B * 8 <> 0).
  { intros Hz. rewrite Hz, Z.div_0_r in HD. lia. }
  assert (Hhalf : F / (B * 16) = F / (B * 8) / 2).
  { rewrite Z.div_div by lia. f_equal. lia. }
  assert (Hq : 2048 <= F / (B * 16) <= 32768).
  { rewrite Hhalf. split.
    - apply Z.div_le_lower_bound; lia.
    - apply Z.div_le_upper_bound; lia. }
  destruct (begin_normal_rate F self B fmt m (F / (B * 8) - 1) (F / (B * 16) - 1))
    as (m' & Hrun & Hregs & _).
  - apply divisor_exact; [assumption | lia].
  - lia.
  - apply divisor_exact; [assumption | lia].
  - exists m'. rewrite Hregs. cbn [UBRRn UCSRnA]. repeat split; try assumption; lia.
Qed.

(** X2 at 16 MHz and 300 baud: the divisor is 3332. *)
Lemma begin_fallback_divisor_witness :
  exists m',
    Mega.begin 16000000 uart_0 300 6 power_on = Some (true, m') /\
    UBRRn (regs (Mega.m_port uart_0) m') = 16000000 / (300 * 16) - 1 /\
    2047 <= UBRRn (regs (Mega.m_port uart_0) m') <= 32767 /\
    UCSRnA (regs (Mega.m_port uart_0) m') = UCSRnA (regs (Mega.m_port uart_0) power_on).
Proof.
  apply (begin_fallback_divisor 16000000 uart_0 300 6 power_on).
  - split; [discriminate | reflexivity].
  - split; reflexivity.
Defined.

(** X3.  [begin] has no guard on its divisions: it has no defined result
    exactly when [baudrate * 8] is 0 as an [unsigned long], or the first
    divisor exceeds 4095 and [baudrate * 16] is 0.  A baud rate of 0 is
    such a call, whatever the clock, the format and the state. *)
Theorem begin_undefined :
  (forall (F : Z) (self : Mega.UART) (B fmt : Z) (m : machine),
      Mega.begin F self B fmt m = None <->
      (uint32 (B * 8) = 0 \/
       exists s8, Mega.divisor F 8 B = Some s8 /\ 4095 < s8 /\ uint32 (B * 16) = 0)) /\
  (forall (F : Z) (self : Mega.UART) (fmt : Z) (m : machine),
      Mega.begin F self 0 fmt m = None).
Proof.
  assert (Hdiv : forall F k B, Mega.divisor F k B = None <-> uint32 (B * k) = 0).
  { intros F k B. unfold Mega.divisor, udiv32.
    destruct (Z.eqb_spec (uint32 (B * k)) 0) as [Hz | Hnz]; split; intros H;
      try reflexivity; try assumption; try discriminate; contradiction. }
  assert (Hmain : forall F self B fmt m,
             Mega.begin F self B fmt m = None <->
             (uint32 (B * 8) = 0 \/
              exists s8, Mega.divisor F 8 B = Some s8 /\ 4095 < s8 /\ uint32 (B * 16) = 0)).
  { intros F self B fmt m. split.
    - intros Hnone.
      destruct (Mega.divisor F 8 B) as [s8 |] eqn:Hs8.
      + right. exists s8. split; [reflexivity |].
        destruct (Z_lt_le_dec 4095 s8) as [Hgt | Hle].
        * split; [assumption |]. apply Hdiv with (F := F).
          destruct (Mega.divisor F 16 B) as [s16 |] eqn:Hs16; [| reflexivity].
          destruct (begin_normal_rate F self B fmt m s8 s16 Hs8 Hgt Hs16) as (m' & Hrun & _).
          congruence.
        * destruct (begin_double_rate F self B fmt m s8 Hs8 Hle) as (m' & Hrun & _).
          congruence.
      + left. now apply Hdiv with (F := F).
    - intros [Hz | (s8 & Hs8 & Hgt & Hz)]; unfold Mega.begin, bind, lift.
      + apply (Hdiv F) in Hz. now rewrite Hz.
      + rewrite Hs8. destruct (Z.ltb_spec 4095 s8); [| lia].
        apply (Hdiv F) in Hz. now rewrite Hz. }
  split; [exact Hmain |].
  intros F self fmt m. apply Hmain. left. reflexivity.
Qed.

(** X4.  [end] undoes the enables of [begin]: after [begin] followed by
    [end] UCSRnB is 0, while the divisor in UBRRn, the format in UCSRnC and
    the double-speed setting in UCSRnA stay as [begin] programmed them; the
    other channel is not touched. *)
Theorem end_after_begin (F : Z) (self : Mega.UART) (B fmt : Z) (m m1 : machine) :
  Mega.begin F self B fmt m = Some (true, m1) ->
  let p := Mega.m_port self in
  exists self' m2,
    Mega.end_ self m1 = Some ((true, self'), m2) /\
    UCSRnB (regs p m2) = 0 /\
    UBRRn (regs p m2) = UBRRn (regs p m1) /\
    UCSRnC (regs p m2) = UCSRnC (regs p m1) /\
    UCSRnA (regs p m2) = UCSRnA (regs p m1) /\
    (forall q, q <> p -> regs q m2 = regs q m).
Proof.
  intros Hrun p. subst p.
  destruct (begin_inv _ _ _ _ _ _ _ Hrun) as (s8 & _ & Hpath & Hoth).
  assert (Hb : UCSRnB (regs (Mega.m_port self) m1) = 152).
  { destruct Hpath as [(_ & ->) | (_ & s16 & _ & ->)]; reflexivity. }
  destruct (end_run self m1) as (m2 & Hend & Hregs & Hoth2 & _).
  eexists _, m2. split; [exact Hend |].
  rewrite Hregs, Hb. cbn [write_reg UCSRnA UCSRnB UCSRnC UBRRn].
  repeat split.
  intros q Hq. rewrite Hoth2 by assumption. now apply Hoth.
Qed.

(** X4 at 16 MHz and 9600 baud on channel 0. *)
Lemma end_after_begin_witness :
  exists m1 self' m2,
    Mega.begin 16000000 uart_0 9600 6 power_on = Some (true, m1) /\
    Mega.end_ uart_0 m1 = Some ((true, self'), m2) /\
    UCSRnB (usart0 m2) = 0 /\
    UBRRn (usart0 m2) = 207.
Proof.
  eexists. 
  destruct (end_after_begin 16000000 uart_0 9600 6 power_on _ eq_refl)
    as (self' & m2 & Hend & Hb & Hubrr & _).
  exists self', m2. repeat split; assumption.
Defined.

(** X5.  [end] is idempotent and keeps the configuration: a first call
    always succeeds and leaves UCSRnA, UCSRnC, UBRRn and the other channel
    as they were; a second call succeeds too and changes neither the
    instance nor any register. *)
Theorem end_twice (self : Mega.UART) (m : machine) :
  let p := Mega.m_port self in
  exists self1 m1 m2,
    Mega.end_ self m = Some ((true, self1), m1) /\
    UCSRnA (regs p m1) = UCSRnA (regs p m) /\
    UCSRnC (regs p m1) = UCSRnC (regs p m) /\
    UBRRn (regs p m1) = UBRRn (regs p m) /\
    (forall q, q <> p -> regs q m1 = regs q m) /\
    Mega.end_ self1 m1 = Some ((true, self1), m2) /\
    (forall q, regs q m2 = regs q m1).
Proof.
  intros p. subst p.
  destruct (end_run self m) as (m1 & Hrun1 & Hregs1 & Hoth1 & _).
  set (self1 := Mega.mk_UART (Mega.m_port self) (IOBuffer.flush (Mega.m_ibuf self))
                             (IOBuffer.flush (Mega.m_obuf self))) in *.
  destruct (end_run self1 m1) as (m2 & Hrun2 & _).
  change (Mega.mk_UART (Mega.m_port self1) (IOBuffer.flush (Mega.m_ibuf self1))
                       (IOBuffer.flush (Mega.m_obuf self1))) with self1 in Hrun2.
  exists self1, m1, m2.
  split; [exact Hrun1 |].
  rewrite Hregs1. cbn [write_reg UCSRnA UCSRnC UBRRn].
  do 3 (split; [reflexivity |]).
  split; [exact Hoth1 |].
  split; [exact Hrun2 |].
  exact (proj2 (end_idempotent self self1 self1 m m1 m2 Hrun1 Hrun2)).
Qed.

(** ** The blocking [putchar] *)

(** One turn of the loop of [putchar]. *)
Lemma putchar_step (wake : Mega.UART -> M Mega.UART) (fuel : nat)
      (self : Mega.UART) (c : Z) (m : machine) :
  let p := Mega.m_port self in
  let self1 := Mega.mk_UART p (Mega.m_ibuf self)
                            (snd (IOBuffer.putchar c (Mega.m_obuf self))) in
  let m1 := emit (Putchar p Output c) m in
  Mega.putchar wake fuel self c m =
    if fst (IOBuffer.putchar c (Mega.m_obuf self)) =? -1 then
      match fuel with
      | O => Some ((None, self1), m1)
      | S n =>
          match wake self1 (emit Sleep m1) with
          | Some (self2, m2) => Mega.putchar wake n self2 c m2
          | None => None
          end
      end
    else
      let v := wrap 8 (Z.lor (UCSRnB (regs p m)) (_BV AVR.UDRIE0)) in
      Some ((Some (Z.land c 255), self1),
            emit (Store p UCSRB v)
                 (set_regs p (write_reg UCSRB v (regs p m)) (emit (Load p UCSRB) m1))).
Proof.
  intros p self1 m1. subst p self1 m1.
  destruct fuel; cbn [Mega.putchar]; unfold Mega.obuf_putchar;
    destruct (IOBuffer.putchar c (Mega.m_obuf self)) as [res b];
    unfold bind, note, ret, load, store; cbn [fst snd];
    destruct (res =? -1); try reflexivity;
    cbn [width]; rewrite !regs_emit; reflexivity.
Qed.

Lemma putchar_full (c : Z) (b : IOBuffer.t) :
  IOBuffer.count b = IOBuffer.capacity b -> IOBuffer.putchar c b = (-1, b).
Proof.
  intros Hfull. unfold IOBuffer.putchar, IOBuffer.is_full.
  now rewrite Hfull, Nat.eqb_refl.
Qed.

Lemma putchar_room (c : Z) (b : IOBuffer.t) :
  IOBuffer.count b <> IOBuffer.capacity b ->
  fst (IOBuffer.putchar c b) = uint8 c /\
  IOBuffer.count (snd (IOBuffer.putchar c b)) = S (IOBuffer.count b) /\
  IOBuffer.capacity (snd (IOBuffer.putchar c b)) = IOBuffer.capacity b.
Proof.
  intros Hroom. unfold IOBuffer.putchar, IOBuffer.is_full.
  apply Nat.eqb_neq in Hroom. rewrite Hroom. cbn.
  repeat split. unfold IOBuffer.capacity. cbn. apply length_insert.
Qed.

(** The two cases of one call of [putchar]. *)
Lemma putchar_cases (wake : Mega.UART -> M Mega.UART) (fuel : nat)
      (self : Mega.UART) (c : Z) (m : machine) :
  (IOBuffer.count (Mega.m_obuf self) <> IOBuffer.capacity (Mega.m_obuf self) /\
   Mega.putchar wake fuel self c m =
     Some ((Some (Z.land c 255), fst (Write.accepted self c m)),
           snd (Write.accepted self c m))) \/
  (IOBuffer.count (Mega.m_obuf self) = IOBuffer.capacity (Mega.m_obuf self) /\
   Mega.putchar wake fuel self c m =
     match fuel with
     | O => Some ((None, self), emit (Putchar (Mega.m_port self) Output c) m)
     | S n =>
         match wake self (emit Sleep (emit (Putchar (Mega.m_port self) Output c) m)) with
         | Some (self2, m2) => Mega.putchar wake n self2 c m2
         | None => None
         end
     end).
Proof.
  rewrite putchar_step. cbv zeta.
  destruct (Nat.eq_dec (IOBuffer.count (Mega.m_obuf self))
                       (IOBuffer.capacity (Mega.m_obuf self))) as [Hfull | Hroom].
  - right. split; [assumption |].
    rewrite (putchar_full c _ Hfull). cbn [fst snd].
    change (-1 =? -1) with true. cbv iota.
    now replace (Mega.mk_UART (Mega.m_port self) (Mega.m_ibuf self) (Mega.m_obuf self))
      with self by now destruct self.
  - left. split; [assumption |].
    destruct (putchar_room c _ Hroom) as (Hres & _).
    rewrite Hres, uint8_neq_m1. reflexivity.
Qed.

(** What holds after an accepted attempt. *)
Lemma accepted_facts (self : Mega.UART) (c : Z) (m : machine) :
  IOBuffer.count (Mega.m_obuf self) <> IOBuffer.capacity (Mega.m_obuf self) ->
  let self' := fst (Write.accepted self c m) in
  let m' := snd (Write.accepted self c m) in
  let p := Mega.m_port self' in
  IOBuffer.count (Mega.m_obuf self') = S (IOBuffer.count (Mega.m_obuf self)) /\
  IOBuffer.storage (Mega.m_obuf self') =
    <[IOBuffer.head (Mega.m_obuf self) := uint8 c]> (IOBuffer.storage (Mega.m_obuf self)) /\
  Z.testbit (UCSRnB (regs p m')) AVR.UDRIE0 = true /\
  exists v, trace m' = trace m ++ [Putchar p Output c; Load p UCSRB; Store p UCSRB v].
Proof.
  intros Hroom self' m' p. subst self' m' p. unfold Write.accepted.
  cbn [fst snd Mega.m_port Mega.m_obuf].
  unfold IOBuffer.putchar, IOBuffer.is_full.
  apply Nat.eqb_neq in Hroom. rewrite Hroom.
  cbn [snd IOBuffer.count IOBuffer.storage].
  split; [reflexivity |]. split; [reflexivity |]. split.
  - rewrite regs_emit, regs_set_regs. cbn [write_reg UCSRnB].
    rewrite wrap_testbit, Z.lor_spec, _BV_testbit by (unfold AVR.UDRIE0; lia).
    rewrite Z.eqb_refl. now rewrite orb_true_r.
  - eexists. unfold emit. cbn [trace]. rewrite trace_set_regs. cbn [trace].
    now rewrite <- !app_assoc.
Qed.

(** X6.  [putchar] returns a character only after the output buffer has
    accepted it.  Whatever the handlers do during the sleeps, a call that
    returns a character comes back as the relation [Write.returns]
    describes: every attempt that found the buffer full was followed by a
    sleep, and the last attempt found room.  At that last attempt the
    character was stored, as eight bits, at [head], the count grew by one,
    and UDRIE was set in UCSRnB; the result is the low eight bits of the
    character.  Conversely, every return the relation describes is the
    result of the call for some number of sleeps. *)
Theorem putchar_returns_after_enqueue :
  (forall (wake : Mega.UART -> M Mega.UART) (fuel : nat) (self : Mega.UART) (c : Z)
          (m : machine) (r : Z) (self' : Mega.UART) (m' : machine),
      Mega.putchar wake fuel self c m = Some ((Some r, self'), m') ->
      let p := Mega.m_port self' in
      r = Z.land c 255 /\
      Write.returns wake c self m self' m' /\
      (exists self0 m0,
          IOBuffer.count (Mega.m_obuf self0) <> IOBuffer.capacity (Mega.m_obuf self0) /\
          (self', m') = Write.accepted self0 c m0 /\
          IOBuffer.count (Mega.m_obuf self') = S (IOBuffer.count (Mega.m_obuf self0)) /\
          IOBuffer.storage (Mega.m_obuf self') =
            <[IOBuffer.head (Mega.m_obuf self0) := uint8 c]>
              (IOBuffer.storage (Mega.m_obuf self0))) /\
      Z.testbit (UCSRnB (regs p m')) AVR.UDRIE0 = true /\
      exists t v, trace m' = t ++ [Putchar p Output c; Load p UCSRB; Store p UCSRB v]) /\
  (forall (wake : Mega.UART -> M Mega.UART) (c : Z) (self : Mega.UART) (m : machine)
          (self' : Mega.UART) (m' : machine),
      Write.returns wake c self m self' m' ->
      exists fuel,
        Mega.putchar wake fuel self c m = Some ((Some (Z.land c 255), self'), m')) /\
  (forall (wake : Mega.UART -> M Mega.UART) (c : Z) (self : Mega.UART) (m : machine),
      IOBuffer.count (Mega.m_obuf self) = IOBuffer.capacity (Mega.m_obuf self) ->
      Mega.putchar wake 0 self c m =
        Some ((None, self), emit (Putchar (Mega.m_port self) Output c) m)).
Proof.
  split; [| split].
  - intros wake fuel.
    assert (Hnow : forall self c m r self' m',
               IOBuffer.count (Mega.m_obuf self) <> IOBuffer.capacity (Mega.m_obuf self) ->
               Some ((Some (Z.land c 255), fst (Write.accepted self c m)),
                     snd (Write.accepted self c m)) = Some ((Some r, self'), m') ->
               r = Z.land c 255 /\
               Write.returns wake c self m self' m' /\
               (exists self0 m0,
                   IOBuffer.count (Mega.m_obuf self0) <>
                     IOBuffer.capacity (Mega.m_obuf self0) /\
                   (self', m') = Write.accepted self0 c m0 /\
                   IOBuffer.count (Mega.m_obuf self') =
                     S (IOBuffer.count (Mega.m_obuf self0)) /\
                   IOBuffer.storage (Mega.m_obuf self') =
                     <[IOBuffer.head (Mega.m_obuf self0) := uint8 c]>
                       (IOBuffer.storage (Mega.m_obuf self0))) /\
               Z.testbit (UCSRnB (regs (Mega.m_port self') m')) AVR.UDRIE0 = true /\
               exists t v, trace m' = t ++ [Putchar (Mega.m_port self') Output c;
                                            Load (Mega.m_port self') UCSRB;
                                            Store (Mega.m_port self') UCSRB v]).
    { intros self c m r self' m' Hroom Hrun. injection Hrun as <- <- <-.
      destruct (accepted_facts self c m Hroom) as (Hcount & Hstore & Hbit & v & Htrace).
      split; [reflexivity |].
      split; [now apply Write.returns_accepted |].
      split.
      - exists self, m. split; [assumption |].
        split; [symmetry; apply surjective_pairing |].
        split; assumption.
      - split; [exact Hbit | eauto]. }
    induction fuel as [| n IH]; intros self c m r self' m' Hrun p; subst p.
    + destruct (putchar_cases wake 0 self c m) as [(Hroom & Heq) | (Hfull & Heq)];
        rewrite Heq in Hrun; [| discriminate].
      exact (Hnow self c m r self' m' Hroom Hrun).
    + destruct (putchar_cases wake (S n) self c m) as [(Hroom & Heq) | (Hfull & Heq)];
        rewrite Heq in Hrun.
      * exact (Hnow self c m r self' m' Hroom Hrun).
      * destruct (wake self _) as [[self2 m2] |] eqn:Hwake; [| discriminate].
        destruct (IH self2 c m2 r self' m' Hrun) as (Hr & Hret & Hacc & Hbit & Htrace).
        split; [exact Hr |].
        split; [exact (Write.returns_retry wake c self m self2 m2 self' m' Hfull Hwake Hret) |].
        split; [exact Hacc |]. split; [exact Hbit | exact Htrace].
  - intros wake c self m self' m' Hret.
    induction Hret as [self m Hroom | self m self2 m2 self' m' Hfull Hwake Hret [fuel IH]].
    + exists 0%nat.
      destruct (putchar_cases wake 0 self c m) as [(_ & Heq) | (Hfull & _)];
        [exact Heq | contradiction].
    + exists (S fuel).
      destruct (putchar_cases wake (S fuel) self c m) as [(Hroom & _) | (_ & Heq)];
        [contradiction |].
      rewrite Heq, Hwake. exact IH.
  - intros wake c self m Hfull.
    destruct (putchar_cases wake 0 self c m) as [(Hroom & _) | (_ & Heq)];
      [contradiction | exact Heq].
Qed.

(** X6 on a full output buffer with the transmit handler ending the sleep:
    the call returns 0x41 after one refused and one accepted attempt, and
    the character is in the buffer. *)
Lemma putchar_returns_after_enqueue_witness :
  exists self' m',
    Mega.putchar Wake.udre 1
                 (Mega.mk_UART USART0 (empty_buffer 4) (IOBuffer.mk [1; 2; 3; 4] 0 0 4))
                 65 open_machine
    = Some ((Some 65, self'), m') /\
    Write.returns Wake.udre 65
                  (Mega.mk_UART USART0 (empty_buffer 4) (IOBuffer.mk [1; 2; 3; 4] 0 0 4))
                  open_machine self' m' /\
    IOBuffer.storage (Mega.m_obuf self') = [65; 2; 3; 4] /\
    Z.testbit (UCSRnB (usart0 m')) AVR.UDRIE0 = true.
Proof.
  eexists _, _. split; [reflexivity |].
  destruct (proj1 putchar_returns_after_enqueue Wake.udre 1%nat
              (Mega.mk_UART USART0 (empty_buffer 4) (IOBuffer.mk [1; 2; 3; 4] 0 0 4))
              65 open_machine 65 _ _ eq_refl)
    as (_ & Hret & _ & Hbit & _).
  split; [exact Hret |]. split; [reflexivity | exact Hbit].
Defined.

Lemma sleeps_app (t1 t2 : list event) :
  Wake.sleeps (t1 ++ t2) = (Wake.sleeps t1 + Wake.sleeps t2)%nat.
Proof.
  induction t1 as [| e t1 IH]; [reflexivity |].
  destruct e; cbn; rewrite ?IH; reflexivity.
Qed.

(** X7.  With the output buffer full and no handler draining it, [putchar]
    never gives up the character and never forces it in: however many times
    it sleeps, it has not returned a character, and the instance and every
    register are as before the call. *)
Theorem putchar_blocks_while_full (fuel : nat) (self : Mega.UART) (c : Z) (m : machine) :
  IOBuffer.count (Mega.m_obuf self) = IOBuffer.capacity (Mega.m_obuf self) ->
  exists m',
    Mega.putchar Wake.none fuel self c m = Some ((None, self), m') /\
    (forall q, regs q m' = regs q m) /\
    Wake.sleeps (trace m') = (Wake.sleeps (trace m) + fuel)%nat.
Proof.
  intros Hfull. revert m.
  assert (Hself : Mega.mk_UART (Mega.m_port self) (Mega.m_ibuf self) (Mega.m_obuf self)
                  = self) by now destruct self.
  induction fuel as [| n IH]; intros m; rewrite putchar_step; cbv zeta;
    rewrite (putchar_full c _ Hfull); cbn [fst snd]; rewrite Hself;
    change (-1 =? -1) with true; cbv iota.
  - eexists. split; [reflexivity |]. split.
    + intros q. apply regs_emit.
    + unfold emit. cbn [trace]. rewrite sleeps_app. cbn. lia.
  - unfold Wake.none at 1, ret.
    destruct (IH (emit Sleep (emit (Putchar (Mega.m_port self) Output c) m)))
      as (m' & Hrun & Hregs & Hsleeps).
    exists m'. split; [exact Hrun |]. split.
    + intros q. rewrite Hregs, !regs_emit. reflexivity.
    + rewrite Hsleeps. unfold emit. cbn [trace].
      rewrite !sleeps_app. cbn. lia.
Qed.

(** X7 with the full output buffer of four bytes and three sleeps. *)
Lemma putchar_blocks_while_full_witness :
  exists m',
    Mega.putchar Wake.none 3
                 (Mega.mk_UART USART0 (empty_buffer 4) (IOBuffer.mk [1; 2; 3; 4] 0 0 4))
                 65 open_machine
    = Some ((None, Mega.mk_UART USART0 (empty_buffer 4) (IOBuffer.mk [1; 2; 3; 4] 0 0 4)), m') /\
    usart0 m' = usart0 open_machine.
Proof.
  destruct (putchar_blocks_while_full
              3 (Mega.mk_UART USART0 (empty_buffer 4) (IOBuffer.mk [1; 2; 3; 4] 0 0 4))
              65 open_machine eq_refl) as (m' & Hrun & Hregs & _).
  exists m'. split; [exact Hrun | exact (Hregs USART0)].
Defined.

(** The transmit handler of channel 0 on a buffer that is not empty. *)
Lemma ISR_USART_UDRE_nonempty (g : Mega.globals) (m : machine) :
  let self := Mega.uart g in
  let ob := Mega.m_obuf self in
  IOBuffer.count ob <> 0%nat ->
  Mega.ISR_USART_UDRE g m =
    Some (Mega.mk_globals
            (Mega.mk_UART (Mega.m_port self) (Mega.m_ibuf self) (snd (IOBuffer.getchar ob)))
            (Mega.uart1 g),
          mk_machine (usart0 m) (usart1 m)
                     (trace m ++ [Getchar (Mega.m_port self) Output;
                                  Store USART0 UDR (fst (IOBuffer.getchar ob))])) /\
  fst (IOBuffer.getchar ob) = uint8 (default 0 (IOBuffer.storage ob !! IOBuffer.tail ob)) /\
  IOBuffer.count (snd (IOBuffer.getchar ob)) = Nat.pred (IOBuffer.count ob) /\
  IOBuffer.capacity (snd (IOBuffer.getchar ob)) = IOBuffer.capacity ob.
Proof.
  intros self ob Hne.
  unfold Mega.ISR_USART_UDRE, Mega.obuf_getchar, IOBuffer.getchar, IOBuffer.is_empty.
  fold self. fold ob. apply Nat.eqb_neq in Hne. rewrite Hne.
  unfold bind, note, ret, store.
  cbn -[Z.testbit wrap Z.land Z.lnot _BV uint8].
  rewrite uint8_neq_m1.
  cbn -[Z.testbit wrap Z.land Z.lnot _BV uint8].
  rewrite uint8_idem. unfold emit. cbn [usart0 usart1 trace].
  rewrite <- app_assoc. repeat split.
Qed.

(** X8.  Back-pressure: with the output buffer full (and of capacity at
    least one), when the sleep is ended by the transmit-buffer-empty
    handler of channel 0, [putchar] returns after exactly one sleep.  The
    handler sends the oldest byte to UDR0, the retry enqueues the
    character, the buffer is full again, and UDRIE is set in UCSRnB. *)
Theorem putchar_backpressure (fuel : nat) (self : Mega.UART) (c : Z) (m : machine) :
  let p := Mega.m_port self in
  let ob := Mega.m_obuf self in
  IOBuffer.count ob = IOBuffer.capacity ob ->
  IOBuffer.capacity ob <> 0%nat ->
  exists self' m' v,
    Mega.putchar Wake.udre (S fuel) self c m = Some ((Some (Z.land c 255), self'), m') /\
    trace m' = trace m ++
      [Putchar p Output c; Sleep;
       Getchar p Output;
       Store USART0 UDR (uint8 (default 0 (IOBuffer.storage ob !! IOBuffer.tail ob)));
       Putchar p Output c; Load p UCSRB; Store p UCSRB v] /\
    IOBuffer.count (Mega.m_obuf self') = IOBuffer.capacity (Mega.m_obuf self') /\
    Mega.m_ibuf self' = Mega.m_ibuf self /\
    Z.testbit (UCSRnB (regs p m')) AVR.UDRIE0 = true.
Proof.
  intros p ob Hfull Hcap.
  assert (Hself : Mega.mk_UART p (Mega.m_ibuf self) ob = self) by now destruct self.
  rewrite putchar_step. cbv zeta. fold p. fold ob.
  rewrite (putchar_full c ob Hfull). cbn [fst snd]. rewrite Hself.
  change (-1 =? -1) with true. cbv iota.
  unfold Wake.udre, bind at 1.
  destruct (ISR_USART_UDRE_nonempty (Mega.mk_globals self None)
              (emit Sleep (emit (Putchar p Output c) m)))
    as (Hisr & Hbyte & Hcount & Hcapg).
  { cbn [Mega.uart]. fold ob. lia. }
  cbn [Mega.uart Mega.uart1] in Hisr, Hbyte, Hcount, Hcapg.
  fold p in Hisr. fold ob in Hisr, Hbyte, Hcount, Hcapg.
  rewrite Hisr. unfold ret at 1.
  set (ob1 := snd (IOBuffer.getchar ob)) in *.
  rewrite putchar_step. cbv zeta. cbn [Mega.uart Mega.m_port Mega.m_ibuf Mega.m_obuf].
  destruct (putchar_room c ob1) as (Hres & Hcount2 & Hcap2).
  { rewrite Hcount, Hcapg. lia. }
  rewrite Hres, uint8_neq_m1.
  eexists _, _, _. split; [reflexivity |].
  cbn [Mega.m_obuf Mega.m_ibuf].
  split; [| split; [| split]].
  - unfold emit. cbn [trace]. rewrite trace_set_regs. cbn [trace].
    rewrite Hbyte, <- !app_assoc. reflexivity.
  - rewrite Hcount2, Hcap2, Hcount, Hcapg. lia.
  - reflexivity.
  - rewrite regs_emit, regs_set_regs. cbn [write_reg UCSRnB].
    rewrite wrap_testbit, Z.lor_spec, _BV_testbit by (unfold AVR.UDRIE0; lia).
    rewrite Z.eqb_refl. now rewrite orb_true_r.
Qed.

(** X8 with the full output buffer 1, 2, 3, 4: the byte 1 goes to UDR0 and
    the character 0x41 is accepted. *)
Lemma putchar_backpressure_witness :
  exists self' m' v,
    Mega.putchar Wake.udre 1
                 (Mega.mk_UART USART0 (empty_buffer 4) (IOBuffer.mk [1; 2; 3; 4] 0 0 4))
                 65 open_machine
    = Some ((Some 65, self'), m') /\
    trace m' = [Putchar USART0 Output 65; Sleep; Getchar USART0 Output;
                Store USART0 UDR 1;
                Putchar USART0 Output 65; Load USART0 UCSRB; Store USART0 UCSRB v] /\
    IOBuffer.storage (Mega.m_obuf self') = [65; 2; 3; 4].
Proof.
  destruct (putchar_backpressure
              0 (Mega.mk_UART USART0 (empty_buffer 4) (IOBuffer.mk [1; 2; 3; 4] 0 0 4))
              65 open_machine eq_refl ltac:(discriminate))
    as (self' & m' & v & Hrun & Htrace & _).
  exists self', m', v. split; [exact Hrun |]. split; [exact Htrace |].
  assert (Hs : Some ((Some 65, self'), m') =
               Mega.putchar Wake.udre 1
                 (Mega.mk_UART USART0 (empty_buffer 4) (IOBuffer.mk [1; 2; 3; 4] 0 0 4))
                 65 open_machine) by (symmetry; exact Hrun).
  vm_compute in Hs. injection Hs as -> _. reflexivity.
Defined.

(** ** The receive handler and the handlers of the second channel *)

(** X9.  The receive handler of channel 0, in every state: it loads UDR0
    exactly once, offers that byte to the input buffer, and does nothing
    else; no register is written, and the output buffer and [uart1] are
    left alone.  When the input buffer has room the byte is stored, as
    eight bits, in the slot at [head], and the count grows by one. *)
Theorem ISR_USART_RX_receives (g : Mega.globals) (m : machine) :
  let self := Mega.uart g in
  let ib := Mega.m_ibuf self in
  exists g' m',
    Mega.ISR_USART_RX g m = Some (g', m') /\
    usart0 m' = usart0 m /\
    usart1 m' = usart1 m /\
    trace m' = trace m ++ [Load USART0 UDR;
                           Putchar (Mega.m_port self) Input (UDRn (usart0 m))] /\
    Mega.uart1 g' = Mega.uart1 g /\
    Mega.m_port (Mega.uart g') = Mega.m_port self /\
    Mega.m_obuf (Mega.uart g') = Mega.m_obuf self /\
    let ib' := Mega.m_ibuf (Mega.uart g') in
    (IOBuffer.count ib <> IOBuffer.capacity ib ->
       IOBuffer.count ib' = S (IOBuffer.count ib) /\
       IOBuffer.storage ib' =
         <[IOBuffer.head ib := uint8 (UDRn (usart0 m))]> (IOBuffer.storage ib) /\
       IOBuffer.head ib' = ((IOBuffer.head ib + 1) mod IOBuffer.capacity ib)%nat /\
       IOBuffer.tail ib' = IOBuffer.tail ib).
Proof.
  intros self ib.
  unfold Mega.ISR_USART_RX, Mega.ibuf_putchar, bind, load, note, ret.
  fold self. fold ib. cbn [regs read_reg].
  destruct (IOBuffer.putchar (UDRn (usart0 m)) ib) as [res ib'] eqn:Hput.
  eexists _, _. split; [reflexivity |].
  cbn [snd fst Mega.uart Mega.uart1 Mega.m_port Mega.m_ibuf Mega.m_obuf].
  unfold emit. cbn [usart0 usart1 trace].
  do 2 (split; [reflexivity |]).
  split; [now rewrite <- app_assoc |].
  do 3 (split; [reflexivity |]).
  intros Hroom. unfold IOBuffer.putchar, IOBuffer.is_full in Hput.
  apply Nat.eqb_neq in Hroom. rewrite Hroom in Hput.
  injection Hput as _ <-. repeat split.
Qed.

(** X9 on channel 0 with 0x5A in the data register and an empty input
    buffer of four bytes. *)
Lemma ISR_USART_RX_receives_witness :
  exists g' m',
    Mega.ISR_USART_RX (Mega.mk_globals uart_0 None) open_machine = Some (g', m') /\
    IOBuffer.count (Mega.m_ibuf (Mega.uart g')) = 1%nat /\
    IOBuffer.storage (Mega.m_ibuf (Mega.uart g')) = [90; 0; 0; 0] /\
    usart0 m' = usart0 open_machine.
Proof.
  destruct (ISR_USART_RX_receives (Mega.mk_globals uart_0 None) open_machine)
    as (g' & m' & Hrun & Hregs & _ & _ & _ & _ & _ & Hroom).
  destruct Hroom as (Hcount & Hstorage & _); [discriminate |].
  exists g', m'. repeat split; assumption.
Defined.

(** X10.  With an instance bound to the second channel, its two handlers
    work on that instance and on the registers of channel 1 only: the
    global [uart] and the registers of channel 0 are not touched.  The
    transmit handler stores the byte at the tail of the instance's output
    buffer to UDR1 or, when that buffer is empty, clears UDRIE in UCSR1B;
    the receive handler loads UDR1 once and offers the byte to the
    instance's input buffer. *)
Theorem ISR_USART1_bound (g : Mega.globals) (m : machine) (u1 : Mega.UART) :
  Mega.uart1 g = Some u1 ->
  let ob := Mega.m_obuf u1 in
  (exists g' m',
      Mega.ISR_USART1_UDRE g m = Some (g', m') /\
      Mega.uart g' = Mega.uart g /\
      usart0 m' = usart0 m /\
      (IOBuffer.count ob <> 0%nat ->
         usart1 m' = usart1 m /\
         Mega.uart1 g' =
           Some (Mega.mk_UART (Mega.m_port u1) (Mega.m_ibuf u1) (snd (IOBuffer.getchar ob))) /\
         trace m' = trace m ++
           [Getchar (Mega.m_port u1) Output;
            Store USART1 UDR (uint8 (default 0 (IOBuffer.storage ob !! IOBuffer.tail ob)))]) /\
      (IOBuffer.count ob = 0%nat ->
         let v := wrap 8 (Z.land (UCSRnB (usart1 m)) (Z.lnot (_BV AVR.UDRIE0))) in
         Mega.uart1 g' = Some u1 /\
         usart1 m' = write_reg UCSRB v (usart1 m) /\
         Z.testbit (UCSRnB (usart1 m')) AVR.UDRIE0 = false /\
         trace m' = trace m ++
           [Getchar (Mega.m_port u1) Output; Load USART1 UCSRB; Store USART1 UCSRB v])) /\
  (exists g' m',
      Mega.ISR_USART1_RX g m = Some (g', m') /\
      Mega.uart g' = Mega.uart g /\
      usart0 m' = usart0 m /\
      usart1 m' = usart1 m /\
      Mega.uart1 g' =
        Some (Mega.mk_UART (Mega.m_port u1)
                           (snd (IOBuffer.putchar (UDRn (usart1 m)) (Mega.m_ibuf u1)))
                           (Mega.m_obuf u1)) /\
      trace m' = trace m ++
        [Load USART1 UDR; Putchar (Mega.m_port u1) Input (UDRn (usart1 m))]).
Proof.
  intros Hbound ob. split.
  - unfold Mega.ISR_USART1_UDRE. rewrite Hbound.
    unfold Mega.obuf_getchar, IOBuffer.getchar, IOBuffer.is_empty. fold ob.
    destruct (Nat.eqb_spec (IOBuffer.count ob) 0) as [Hz | Hnz].
    + unfold bind, note, ret, Mega.bit_clear, load, store.
      cbn -[Z.testbit wrap Z.land Z.lnot _BV].
      eexists _, _. split; [reflexivity |].
      cbn -[Z.testbit wrap Z.land Z.lnot _BV].
      do 2 (split; [reflexivity |]).
      split; [intros Hne; contradiction |].
      intros _.
      split; [now destruct u1 |].
      split; [reflexivity |].
      split.
      * rewrite bit_clear_bits by (unfold AVR.UDRIE0; lia).
        rewrite Z.eqb_refl. apply andb_false_r.
      * now rewrite <- !app_assoc.
    + unfold bind, note, ret, store.
      cbn -[Z.testbit wrap Z.land Z.lnot _BV uint8].
      rewrite uint8_neq_m1.
      cbn -[Z.testbit wrap Z.land Z.lnot _BV uint8].
      rewrite uint8_idem.
      eexists _, _. split; [reflexivity |].
      cbn -[Z.testbit wrap Z.land Z.lnot _BV uint8].
      do 2 (split; [reflexivity |]).
      split; [| intros Hz; contradiction].
      intros _.
      split; [now destruct m |].
      split; [reflexivity |].
      now rewrite <- !app_assoc.
  - unfold Mega.ISR_USART1_RX. rewrite Hbound.
    unfold Mega.ibuf_putchar, bind, load, note, ret. cbn [regs read_reg].
    destruct (IOBuffer.putchar (UDRn (usart1 m)) (Mega.m_ibuf u1)) as [res ib'].
    eexists _, _. split; [reflexivity |].
    cbn [snd fst Mega.uart Mega.uart1]. unfold emit. cbn [usart0 usart1 trace].
    do 4 (split; [reflexivity |]).
    now rewrite <- app_assoc.
Qed.

(** X10 with the instance [uart_1] bound to the second channel: its byte
    0x41 goes to UDR1. *)
Lemma ISR_USART1_bound_witness :
  exists g' m',
    Mega.ISR_USART1_UDRE (Mega.mk_globals uart_0 (Some uart_1)) open_machine
    = Some (g', m') /\
    Mega.uart g' = uart_0 /\
    usart0 m' = usart0 open_machine /\
    trace m' = [Getchar USART1 Output; Store USART1 UDR 65].
Proof.
  destruct (ISR_USART1_bound (Mega.mk_globals uart_0 (Some uart_1)) open_machine
                             uart_1 eq_refl)
    as [(g' & m' & Hrun & Huart & Hregs & Hsome & _) _].
  destruct Hsome as (_ & _ & Htrace); [discriminate |].
  exists g', m'. repeat split; assumption.
Defined.

(** ** The bit-banged frame in general *)

Lemma levels_app (l1 l2 : list Tiny.line_event) :
  Tiny.levels (l1 ++ l2) = Tiny.levels l1 ++ Tiny.levels l2.
Proof.
  induction l1 as [| e l1 IH]; [reflexivity |].
  destruct e; cbn; rewrite ?IH; reflexivity.
Qed.

Lemma delays_app (l1 l2 : list Tiny.line_event) :
  Frame.delays (l1 ++ l2) = Frame.delays l1 ++ Frame.delays l2.
Proof.
  induction l1 as [| e l1 IH]; [reflexivity |].
  destruct e; cbn; rewrite ?IH; reflexivity.
Qed.

Lemma send_bits_delays (period : Z) (bits : nat) (c : Z) :
  Frame.delays (Tiny.send_bits period bits c) = repeat period bits.
Proof.
  revert c. induction bits as [| n IH]; intros c; [reflexivity |].
  cbn. now rewrite IH.
Qed.

(** The data bits are sent inside the [synchronized] block opened before
    them. *)
Lemma send_bits_locked (period : Z) (bits : nat) (c : Z) (rest : list Tiny.line_event) :
  Frame.locked true (Tiny.send_bits period bits c ++ rest) =
    Tiny.send_bits period bits c ++ Frame.locked true rest.
Proof.
  revert c. induction bits as [| n IH]; intros c; [reflexivity |].
  cbn. now rewrite IH.
Qed.

(** X11.  The frame of the bit-banged [putchar], for every character and
    every format.  With [n] the data-bit count of the format: the levels
    driven are the start bit 0, the [n] low bits of the character from bit
    0 upwards, and the stop level 1; every level is held for one bit
    period, except the last, which is followed by the guard delay of 32
    periods (in 16 bits); all pin writes and all bit-period delays lie
    inside the [synchronized] block, the guard delay outside; the result is
    the low eight bits of the character. *)
Theorem putchar_frame_shape (DATA_MASK : Z) (self : Tiny.UART) (c : Z) :
  let n := Z.to_nat (uint8 (Z.land (Tiny.m_format self) DATA_MASK)) in
  let t := snd (Tiny.putchar DATA_MASK self c) in
  fst (Tiny.putchar DATA_MASK self c) = Z.land c 255 /\
  Tiny.levels t =
    [0] ++ map (fun i => Z.b2z (Z.testbit c (Z.of_nat i))) (seq 0 n) ++ [1] /\
  Frame.delays t =
    repeat (Tiny.m_period self) (S n) ++ [uint16 (Tiny.m_period self * 32)] /\
  Tiny.levels (Frame.locked false t) = Tiny.levels t /\
  Frame.delays (Frame.locked false t) = repeat (Tiny.m_period self) (S n).
Proof.
  intros n t. subst t. unfold Tiny.putchar. fold n. cbn [fst snd].
  split; [reflexivity |].
  split.
  { rewrite !levels_app, send_bits_levels. reflexivity. }
  split.
  { rewrite !delays_app, send_bits_delays. reflexivity. }
  cbn [app Frame.locked]. rewrite send_bits_locked. cbn [app Frame.locked].
  split.
  - cbn [Tiny.levels]. rewrite !levels_app. reflexivity.
  - cbn [Frame.delays]. rewrite delays_app, send_bits_delays. cbn.
    now rewrite app_nil_r.
Qed.

(** Characters that agree on their low [bits] bits give the same data
    bits. *)
Lemma send_bits_ext (period : Z) (bits : nat) (c c' : Z) :
  (forall i, 0 <= i < Z.of_nat bits -> Z.testbit c i = Z.testbit c' i) ->
  Tiny.send_bits period bits c = Tiny.send_bits period bits c'.
Proof.
  revert c c'. induction bits as [| n IH]; intros c c' Hagree; [reflexivity |].
  cbn [Tiny.send_bits]. f_equal; [| f_equal].
  - f_equal. change 1 with (Z.ones 1). rewrite !Z.land_ones by lia.
    change (2 ^ 1) with 2. rewrite <- !Z.bit0_mod. f_equal. apply Hagree. lia.
  - apply IH. intros i Hi. rewrite !Z.shiftr_spec by lia. apply Hagree. lia.
Qed.

(** X12.  For a format of at most eight data bits the frame depends on the
    low eight bits of the character only: a negative [char] and its
    unsigned value are sent alike, and give the same result. *)
Theorem putchar_low_byte (DATA_MASK : Z) (self : Tiny.UART) (c : Z) :
  uint8 (Z.land (Tiny.m_format self) DATA_MASK) <= 8 ->
  Tiny.putchar DATA_MASK self c = Tiny.putchar DATA_MASK self (Z.land c 255).
Proof.
  intros Hbits. unfold Tiny.putchar.
  assert (Hres : Z.land (Z.land c 255) 255 = Z.land c 255).
  { change 255 with (Z.ones 8). rewrite !Z.land_ones by lia.
    apply Z.mod_mod. lia. }
  rewrite Hres.
  rewrite (send_bits_ext (Tiny.m_period self) _ c (Z.land c 255)); [reflexivity |].
  intros i Hi.
  change 255 with (Z.ones 8). rewrite Z.land_spec, Z.testbit_ones_nonneg by lia.
  destruct (Z.ltb_spec i 8) as [_ | Hge]; [now rewrite andb_true_r |].
  pose proof (wrap_range 8 (Z.land (Tiny.m_format self) DATA_MASK)) as Hr.
  unfold uint8 in *. lia.
Qed.

(** X12 for the character 0xC1 held in a signed [char] (-63) and as an
    unsigned value (193), with eight data bits. *)
Lemma putchar_low_byte_witness :
  Tiny.putchar 15 (Tiny.mk_UART 104 8) (-63) = Tiny.putchar 15 (Tiny.mk_UART 104 8) 193.
Proof.
  apply (putchar_low_byte 15 (Tiny.mk_UART 104 8) (-63)). discriminate.
Defined.

(** X13.  The bit period of the bit-banged UART.  For a baud rate [B] from
    16 up, [begin] returns success and stores the period [p], in
    microseconds, with [p * B <= 1000000 < (p + 1) * B], and the low eight
    bits of the format; above one million baud the period is 0, so the
    frame is sent without any delay.  A baud rate of 0 is a division by
    zero. *)
Theorem begin_period :
  (forall B format : Z,
      16 <= B < 2 ^ 32 ->
      exists self,
        Tiny.begin B format = Some (true, self) /\
        Tiny.m_format self = uint8 format /\
        Tiny.m_period self * B <= 1000000 < (Tiny.m_period self + 1) * B /\
        (1000000 < B -> Tiny.m_period self = 0)) /\
  (forall format : Z, Tiny.begin 0 format = None).
Proof.
  split; [| reflexivity].
  intros B format HB. unfold Tiny.begin, udiv32, uint32.
  rewrite (wrap_small 32 B) by lia.
  rewrite (wrap_small 32 1000000) by (split; [discriminate | reflexivity]).
  destruct (Z.eqb_spec B 0) as [Hz | _]; [lia |].
  eexists. split; [reflexivity |]. cbn [Tiny.m_format Tiny.m_period].
  assert (Hq : 0 <= 1000000 / B <= 62500).
  { split; [apply Z.div_pos; lia |].
    apply Z.div_le_upper_bound; lia. }
  unfold uint16. rewrite (wrap_small 16) by lia.
  split; [reflexivity |]. split.
  - pose proof (Z.mul_div_le 1000000 B ltac:(lia)).
    pose proof (Z.mul_succ_div_gt 1000000 B ltac:(lia)). lia.
  - intros Hfast. apply Z.div_small. lia.
Qed.

(** X13 at 9600 baud: a period of 104 microseconds. *)
Lemma begin_period_witness :
  exists self,
    Tiny.begin 9600 8 = Some (true, self) /\
    Tiny.m_format self = uint8 8 /\
    Tiny.m_period self * 9600 <= 1000000 < (Tiny.m_period self + 1) * 9600 /\
    (1000000 < 9600 -> Tiny.m_period self = 0).
Proof.
  apply (proj1 begin_period 9600 8). split; [discriminate | reflexivity].
Defined.

(** ** The port of the MJKDZ adapter *)

Lemma set_field_bits (pos v byte i : Z) :
  0 <= pos ->
  Z.testbit (HD44780.set_field pos v byte) i =
    if i =? pos then Z.odd v else Z.testbit byte i.
Proof.
  intros Hpos. unfold HD44780.set_field.
  destruct (Z.eqb_spec i pos) as [-> | Hne]; destruct (Z.odd v).
  - now apply Z.setbit_eq.
  - apply Z.clearbit_eq.
  - apply Z.setbit_neq; [assumption | congruence].
  - apply Z.clearbit_neq. congruence.
Qed.

Lemma set_nibble_bits (pos v byte i : Z) :
  0 <= pos -> 0 <= i ->
  Z.testbit (MJKDZ.set_nibble pos v byte) i =
    if (pos <=? i) && (i <? pos + 4) then Z.testbit v (i - pos) else Z.testbit byte i.
Proof.
  intros Hpos Hi. unfold MJKDZ.set_nibble.
  rewrite Z.lor_spec, Z.ldiff_spec, !Z.shiftl_spec, Z.land_spec by assumption.
  change 15 with (Z.ones 4). rewrite Z.testbit_ones by lia.
  destruct (Z.leb_spec pos i) as [Hle | Hlt]; destruct (Z.ltb_spec i (pos + 4)) as [Hin | Hout];
    cbn [andb].
  - destruct (Z.leb_spec 0 (i - pos)); [| lia].
    destruct (Z.ltb_spec (i - pos) 4); [| lia].
    cbn. rewrite andb_false_r, andb_true_r. reflexivity.
  - destruct (Z.ltb_spec (i - pos) 4); [lia |].
    rewrite !andb_false_r. cbn. rewrite andb_true_r, orb_false_r. reflexivity.
  - destruct (Z.leb_spec 0 (i - pos)); [lia |].
    cbn. rewrite andb_true_r, andb_false_r, orb_false_r. reflexivity.
  - destruct (Z.leb_spec 0 (i - pos)); [lia |].
    cbn. rewrite andb_true_r, andb_false_r, orb_false_r. reflexivity.
Qed.

(** X14.  [write4b] is an enable pulse.  Where the enable bit lies outside
    the data field, the call writes exactly two bytes to the device: they
    differ in the enable bit only, set in the first and clear in the
    second; both carry the low four bits of the argument in the data field
    and every other bit of the port as it was.  The port is left as the
    second byte. *)
Theorem write4b_pulse (data en d : Z) (self : HD44780.MJKDZ) :
  0 <= data -> 0 <= en -> en < data \/ data + 4 <= en ->
  exists b1 b2,
    HD44780.written (MJKDZ.write4b data en d self) = HD44780.written self ++ [b1; b2] /\
    HD44780.m_port (MJKDZ.write4b data en d self) = b2 /\
    Z.testbit b1 en = true /\
    Z.testbit b2 en = false /\
    (forall i, i <> en -> Z.testbit b1 i = Z.testbit b2 i) /\
    (forall k, 0 <= k < 4 -> Z.testbit b2 (data + k) = Z.testbit d k) /\
    (forall i, i <> en -> i < data \/ data + 4 <= i ->
               Z.testbit b2 i = Z.testbit (HD44780.m_port self) i).
Proof.
  intros Hdata Hen Hout. unfold MJKDZ.write4b, HD44780.write.
  cbn [HD44780.m_port HD44780.written].
  eexists _, _. split; [now rewrite <- app_assoc |]. split; [reflexivity |].
  split; [| split; [| split; [| split]]].
  - rewrite set_field_bits, Z.eqb_refl by assumption. reflexivity.
  - rewrite set_field_bits, Z.eqb_refl by assumption. reflexivity.
  - intros i Hne. rewrite !set_field_bits by assumption.
    apply Z.eqb_neq in Hne. now rewrite Hne.
  - intros k Hk. rewrite !set_field_bits by assumption.
    destruct (Z.eqb_spec (data + k) en) as [Heq | _]; [lia |].
    rewrite set_nibble_bits by lia.
    destruct (Z.leb_spec data (data + k)); [| lia].
    destruct (Z.ltb_spec (data + k) (data + 4)); [| lia].
    cbn [andb]. replace (data + k - data) with k by lia.
    unfold uint8. rewrite wrap_testbit by lia.
    destruct (Z.ltb_spec k 8); [reflexivity | lia].
  - intros i Hne Hfield. rewrite !set_field_bits by assumption.
    apply Z.eqb_neq in Hne. rewrite Hne.
    destruct (Z_lt_le_dec i 0) as [Hneg | Hpos]; [now rewrite !Z.testbit_neg_r |].
    rewrite set_nibble_bits by assumption.
    destruct (Z.leb_spec data i); destruct (Z.ltb_spec i (data + 4));
      cbn [andb]; try reflexivity; lia.
Qed.

(** X14 with the data field in bits 0 to 3 and the enable bit 4: on a port
    of 0x80, [write4b(0x35)] writes 0x95 and then 0x85. *)
Lemma write4b_pulse_witness :
  exists b1 b2,
    HD44780.written (MJKDZ.write4b 0 4 53 (HD44780.mk_MJKDZ 128 [])) = [] ++ [b1; b2] /\
    HD44780.m_port (MJKDZ.write4b 0 4 53 (HD44780.mk_MJKDZ 128 [])) = b2 /\
    b1 = 149 /\ b2 = 133.
Proof.
  destruct (write4b_pulse 0 4 53 (HD44780.mk_MJKDZ 128 []))
    as (b1 & b2 & Hw & Hp & _); [lia | lia | lia |].
  exists b1, b2. split; [exact Hw |]. split; [exact Hp |].
  vm_compute in Hw. injection Hw as <- <-. split; reflexivity.
Defined.

(** X15.  [set_mode] writes nothing to the device and stores the low bit of
    its argument in the register-select bit of the port: an odd flag
    selects data, and every even flag, 2 for one, selects command as 0
    does.  The other bits of the port are unchanged. *)
Theorem set_mode_low_bit (rs flag : Z) (self : HD44780.MJKDZ) :
  0 <= rs ->
  0 <= flag < 256 ->
  HD44780.written (MJKDZ.set_mode rs flag self) = HD44780.written self /\
  Z.testbit (HD44780.m_port (MJKDZ.set_mode rs flag self)) rs = Z.odd flag /\
  (forall i, i <> rs ->
             Z.testbit (HD44780.m_port (MJKDZ.set_mode rs flag self)) i =
               Z.testbit (HD44780.m_port self) i).
Proof.
  intros Hrs Hflag. unfold MJKDZ.set_mode. cbn [HD44780.m_port HD44780.written].
  unfold uint8. rewrite wrap_small by lia.
  split; [reflexivity |]. split.
  - rewrite set_field_bits, Z.eqb_refl by assumption. reflexivity.
  - intros i Hne. rewrite set_field_bits by assumption.
    apply Z.eqb_neq in Hne. now rewrite Hne.
Qed.

(** X15 with the register-select bit 6 set: [set_mode(2)] clears it. *)
Lemma set_mode_low_bit_witness :
  HD44780.written (MJKDZ.set_mode 6 2 (HD44780.mk_MJKDZ 64 [])) = [] /\
  Z.testbit (HD44780.m_port (MJKDZ.set_mode 6 2 (HD44780.mk_MJKDZ 64 []))) 6 = false /\
  (forall i, i <> 6 ->
             Z.testbit (HD44780.m_port (MJKDZ.set_mode 6 2 (HD44780.mk_MJKDZ 64 []))) i =
               Z.testbit 64 i).
Proof.
  apply (set_mode_low_bit 6 2 (HD44780.mk_MJKDZ 64 [])).
  - discriminate.
  - split; [discriminate | reflexivity].
Defined.

(** X16.  The back-light setting persists: after [set_backlight(flag)], a
    change of mode and a four-bit write send bytes whose back-light bit is
    still [!flag], and it is still [!flag] in the port afterwards, provided
    the fields do not overlap. *)
Theorem backlight_persists (data en rs bt flag mode d : Z) (self : HD44780.MJKDZ) :
  0 <= data -> 0 <= en -> 0 <= rs -> 0 <= bt ->
  bt <> en -> bt <> rs -> bt < data \/ data + 4 <= bt ->
  en < data \/ data + 4 <= en ->
  0 <= flag < 256 ->
  let self1 := HD44780.set_backlight bt flag self in
  let self2 := MJKDZ.write4b data en d (MJKDZ.set_mode rs mode self1) in
  exists b0 b1 b2,
    HD44780.written self2 = HD44780.written self ++ [b0; b1; b2] /\
    Z.testbit b0 bt = (flag =? 0) /\
    Z.testbit b1 bt = (flag =? 0) /\
    Z.testbit b2 bt = (flag =? 0) /\
    Z.testbit (HD44780.m_port self2) bt = (flag =? 0).
Proof.
  intros Hdata Hen Hrs Hbt Hbe Hbr Hbd Hed Hflag self1 self2.
  assert (H1 : Z.testbit (HD44780.m_port self1) bt = (flag =? 0)).
  { subst self1. unfold HD44780.set_backlight, HD44780.write, HD44780.lnot_int.
    cbn [HD44780.m_port]. rewrite set_field_bits, Z.eqb_refl by assumption.
    unfold uint8. rewrite wrap_small by lia. now destruct (flag =? 0). }
  assert (Hw1 : HD44780.written self1 = HD44780.written self ++ [HD44780.m_port self1]).
  { reflexivity. }
  set (self1' := MJKDZ.set_mode rs mode self1).
  assert (H1' : Z.testbit (HD44780.m_port self1') bt = (flag =? 0)).
  { subst self1'. unfold MJKDZ.set_mode. cbn [HD44780.m_port].
    rewrite set_field_bits by assumption.
    destruct (Z.eqb_spec bt rs); [contradiction | assumption]. }
  assert (Hnib : forall byte, Z.testbit (MJKDZ.set_nibble data (uint8 d) byte) bt =
                              Z.testbit byte bt).
  { intros byte. rewrite set_nibble_bits by assumption.
    destruct (Z.leb_spec data bt); destruct (Z.ltb_spec bt (data + 4));
      cbn [andb]; try reflexivity; lia. }
  assert (Hfld : forall v byte, Z.testbit (HD44780.set_field en v byte) bt =
                                Z.testbit byte bt).
  { intros v byte. rewrite set_field_bits by assumption.
    destruct (Z.eqb_spec bt en); [contradiction | reflexivity]. }
  subst self2. fold self1'. unfold MJKDZ.write4b, HD44780.write.
  cbn [HD44780.m_port HD44780.written].
  eexists _, _, _. split.
  - subst self1'. unfold MJKDZ.set_mode. cbn [HD44780.written].
    rewrite Hw1, <- !app_assoc. reflexivity.
  - split; [exact H1 |].
    rewrite !Hfld, !Hnib. repeat split; exact H1'.
Qed.

(** X16 with the data field in bits 0 to 3, enable in bit 4, register
    select in bit 6 and the back-light in bit 7: the back-light switched on
    (bit 7 clear) stays on through a data write. *)
Lemma backlight_persists_witness :
  exists b0 b1 b2,
    HD44780.written
      (MJKDZ.write4b 0 4 53
         (MJKDZ.set_mode 6 1 (HD44780.set_backlight 7 1 (HD44780.mk_MJKDZ 128 []))))
    = [] ++ [b0; b1; b2] /\
    Z.testbit b0 7 = false /\
    Z.testbit b1 7 = false /\
    Z.testbit b2 7 = false /\
    Z.testbit
      (HD44780.m_port
         (MJKDZ.write4b 0 4 53
            (MJKDZ.set_mode 6 1 (HD44780.set_backlight 7 1 (HD44780.mk_MJKDZ 128 [])))))
      7 = false.
Proof.
  apply (backlight_persists 0 4 6 7 1 1 53 (HD44780.mk_MJKDZ 128 [])); lia.
Defined.

(** ** Sequences of dial events *)

(** X17.  No event changes the range or the step of a dial, and a sequence
    of events calls [on_change] at most once per event. *)
Theorem turn_keeps_range :
  forall (T : Type) (EqT : EqDecision T) (NumT : Rotary.Number T)
         (values : list Z) (d : Rotary.Dial T),
    Rotary.m_min (Dial.turn values d) = Rotary.m_min d /\
    Rotary.m_max (Dial.turn values d) = Rotary.m_max d /\
    Rotary.m_step (Dial.turn values d) = Rotary.m_step d /\
    (length (Dial.changes values d) <= length values)%nat.
Proof.
  intros T EqT NumT values. induction values as [| value rest IH]; intros d.
  - cbn. repeat split; lia.
  - unfold Dial.turn in *. cbn [fold_left Dial.changes length].
    specialize (IH (fst (Rotary.on_event 0 value d))).
    destruct (Rotary.on_event 0 value d) as [d' change] eqn:Hev.
    cbn [fst] in IH |- *.
    assert (Hd' : Rotary.m_min d' = Rotary.m_min d /\
                  Rotary.m_max d' = Rotary.m_max d /\
                  Rotary.m_step d' = Rotary.m_step d).
    { unfold Rotary.on_event in Hev.
      destruct (value =? Rotary.CW);
        [destruct (decide (Rotary.m_value d = Rotary.m_max d))
        | destruct (decide (Rotary.m_value d = Rotary.m_min d))];
        injection Hev as <- _; now repeat split. }
    destruct Hd' as (Hmin & Hmax & Hstep), IH as (IHmin & IHmax & IHstep & IHlen).
    rewrite IHmin, IHmax, IHstep.
    repeat split; try assumption.
    destruct change; cbn [length]; lia.
Qed.

(** X18.  A clockwise event followed by a counter-clockwise one brings a
    [uint16_t] dial back to its value, with the two changes reported,
    unless a bound blocks one of them: the dial must not be at [max], nor
    land on [min] after the first step.  This holds even when the first
    step passes [max] or wraps. *)
Theorem dial_round_trip (value min max step : Z) :
  0 <= value < 2 ^ 16 ->
  value <> max ->
  uint16 (value + step) <> min ->
  let d := Dial.new value min max step in
  Dial.turn [Rotary.CW; Rotary.CCW] d = d /\
  Dial.changes [Rotary.CW; Rotary.CCW] d = [uint16 (value + step); value].
Proof.
  intros Hv Hmax Hmin d. subst d.
  assert (Hback : uint16 (uint16 (value + step) - step) = value).
  { unfold uint16, wrap. rewrite Zminus_mod_idemp_l.
    replace (value + step - step) with value by lia.
    now apply Z.mod_small. }
  unfold Dial.turn, Dial.changes, Dial.new, Rotary.on_event.
  cbn [fold_left fst Rotary.m_value Rotary.m_max Rotary.m_min Rotary.m_step].
  change (Rotary.CW =? Rotary.CW) with true.
  change (Rotary.CCW =? Rotary.CW) with false. cbv iota.
  rewrite (decide_False (P := value = max)) by assumption.
  cbn [fst Rotary.m_value Rotary.m_max Rotary.m_min Rotary.m_step Rotary.add
       Rotary.sub Rotary.uint16_Number].
  rewrite (decide_False (P := uint16 (value + step) = min)) by assumption.
  cbn [fst Rotary.m_value Rotary.m_max Rotary.m_min Rotary.m_step].
  rewrite Hback. split; reflexivity.
Qed.

(** X18 for a dial at 9 with range 0 to 10 and step 2: it goes to 11, past
    the maximum, and comes back to 9. *)
Lemma dial_round_trip_witness :
  Dial.turn [Rotary.CW; Rotary.CCW] (Dial.new 9 0 10 2) = Dial.new 9 0 10 2 /\
  Dial.changes [Rotary.CW; Rotary.CCW] (Dial.new 9 0 10 2) = [uint16 (9 + 2); 9].
Proof.
  apply (dial_round_trip 9 0 10 2).
  - split; [discriminate | reflexivity].
  - discriminate.
  - discriminate.
Defined.

(** One event on a [uint16_t] dial whose value lies on the grid of steps
    between [min] and [max]. *)
Lemma on_event_on_grid (min step n k value : Z) :
  0 <= min -> 0 < step -> 0 <= k <= n -> min + n * step < 2 ^ 16 ->
  exists k',
    0 <= k' <= n /\
    fst (Rotary.on_event 0 value
           (Rotary.mk_Dial (min + k * step) min (min + n * step) step)) =
      Rotary.mk_Dial (min + k' * step) min (min + n * step) step.
Proof.
  intros Hmin Hstep Hk Hmax. unfold Rotary.on_event.
  cbn [Rotary.m_value Rotary.m_max Rotary.m_min Rotary.m_step Rotary.add Rotary.sub
       Rotary.uint16_Number].
  destruct (value =? Rotary.CW).
  - destruct (decide (min + k * step = min + n * step)) as [Heq | Hne].
    + exists k. split; [lia | reflexivity].
    + assert (Hlt : k < n) by nia.
      exists (k + 1). split; [lia |]. cbn [fst]. f_equal.
      unfold uint16. rewrite wrap_small by nia. lia.
  - destruct (decide (min + k * step = min)) as [Heq | Hne].
    + exists k. split; [lia | reflexivity].
    + assert (Hpos : 1 <= k) by nia.
      exists (k - 1). split; [lia |]. cbn [fst]. f_equal.
      unfold uint16. rewrite wrap_small by nia. lia.
Qed.

(** X19.  A dial whose range is a whole number of steps and whose value
    starts on a step never leaves its range: for a [uint16_t] dial with
    [max = min + n * step] and initial value [min + k * step],
    [0 <= k <= n], every sequence of events leaves the value on a step
    between [min] and [max]. *)
Theorem dial_stays_in_range (min step n k : Z) (values : list Z) :
  0 <= min -> 0 < step -> 0 <= k <= n -> min + n * step < 2 ^ 16 ->
  let d := Dial.turn values (Dial.new (min + k * step) min (min + n * step) step) in
  (exists k', 0 <= k' <= n /\ Dial.get_value d = min + k' * step) /\
  min <= Dial.get_value d <= min + n * step.
Proof.
  intros Hmin Hstep Hk Hmax.
  assert (Hgrid : exists k',
             0 <= k' <= n /\
             Dial.turn values (Dial.new (min + k * step) min (min + n * step) step) =
               Rotary.mk_Dial (min + k' * step) min (min + n * step) step).
  { revert k Hk. induction values as [| value rest IH]; intros k Hk.
    - exists k. split; [assumption | reflexivity].
    - unfold Dial.turn, Dial.new in *. cbn [fold_left].
      destruct (on_event_on_grid min step n k value Hmin Hstep Hk Hmax)
        as (k1 & Hk1 & Hev).
      rewrite Hev. exact (IH k1 Hk1). }
  destruct Hgrid as (k' & Hk' & Hturn).
  cbv zeta. rewrite Hturn. unfold Dial.get_value. cbn [Rotary.m_value].
  split; [exists k'; split; [assumption | reflexivity] | nia].
Qed.

(** X19 for a dial from 0 to 10 in steps of 2, started at 8 and turned
    clockwise three times: it stops at 10. *)
Lemma dial_stays_in_range_witness :
  (exists k', 0 <= k' <= 5 /\
              Dial.get_value
                (Dial.turn [Rotary.CW; Rotary.CW; Rotary.CW]
                           (Dial.new (0 + 4 * 2) 0 (0 + 5 * 2) 2)) = 0 + k' * 2) /\
  0 <= Dial.get_value
         (Dial.turn [Rotary.CW; Rotary.CW; Rotary.CW]
                    (Dial.new (0 + 4 * 2) 0 (0 + 5 * 2) 2)) <= 0 + 5 * 2.
Proof.
  apply (dial_stays_in_range 0 2 5 4 [Rotary.CW; Rotary.CW; Rotary.CW]); lia.
Defined.

(** ** The first write after [setup] *)

(** X20.  [setup] clears the whole port, so that the first four-bit write
    after it sends the low nibble of its argument in the data field with
    the enable bit, then the same nibble alone: register select, read/write
    and back-light bits are all 0 in both bytes.  [setup] itself writes
    nothing through [write]; it passes 0 to [set_data_direction]. *)
Theorem write4b_after_setup (data en d : Z) (self : HD44780.MJKDZ) :
  0 <= data -> 0 <= en -> en < data \/ data + 4 <= en ->
  let nibble := Z.shiftl (Z.land d 15) data in
  snd (MJKDZ.setup self) = 0 /\
  HD44780.written (fst (MJKDZ.setup self)) = HD44780.written self /\
  HD44780.written (MJKDZ.write4b data en d (fst (MJKDZ.setup self))) =
    HD44780.written self ++ [Z.lor nibble (_BV en); nibble] /\
  HD44780.m_port (MJKDZ.write4b data en d (fst (MJKDZ.setup self))) = nibble.
Proof.
  intros Hdata Hen Hout nibble.
  assert (Hnib : forall i, 0 <= i ->
             Z.testbit nibble i =
               (data <=? i) && (i <? data + 4) && Z.testbit d (i - data)).
  { intros i Hi. subst nibble. rewrite Z.shiftl_spec, Z.land_spec by assumption.
    change 15 with (Z.ones 4). rewrite Z.testbit_ones by lia.
    destruct (Z.leb_spec data i); destruct (Z.ltb_spec i (data + 4));
      destruct (Z.leb_spec 0 (i - data)); destruct (Z.ltb_spec (i - data) 4);
      cbn [andb]; try lia; try reflexivity;
      try (now rewrite andb_true_r); now rewrite andb_false_r. }
  assert (Hset : forall i, 0 <= i ->
             Z.testbit (MJKDZ.set_nibble data (uint8 d) 0) i = Z.testbit nibble i).
  { intros i Hi. rewrite set_nibble_bits, Hnib by assumption.
    destruct ((data <=? i) && (i <? data + 4)) eqn:Hin; cbn [andb].
    - unfold uint8. rewrite wrap_testbit by lia.
      apply andb_true_iff in Hin. destruct Hin as [Hlo Hhi].
      apply Z.leb_le in Hlo. apply Z.ltb_lt in Hhi.
      destruct (Z.ltb_spec (i - data) 8); [reflexivity | lia].
    - apply Z.testbit_0_l. }
  assert (Hb1 : HD44780.set_field en 1 (MJKDZ.set_nibble data (uint8 d) 0) =
                Z.lor nibble (_BV en)).
  { apply Z.bits_inj'. intros i Hi.
    rewrite set_field_bits, Z.lor_spec, _BV_testbit by assumption.
    destruct (Z.eqb_spec i en) as [-> | Hne].
    - now rewrite orb_true_r.
    - rewrite orb_false_r. now apply Hset. }
  assert (Hb2 : HD44780.set_field en 0 (Z.lor nibble (_BV en)) = nibble).
  { apply Z.bits_inj'. intros i Hi.
    rewrite set_field_bits, Z.lor_spec, _BV_testbit by assumption.
    destruct (Z.eqb_spec i en) as [-> | Hne].
    - cbn [Z.odd]. rewrite Hnib by assumption.
      destruct (Z.leb_spec data en); destruct (Z.ltb_spec en (data + 4));
        cbn [andb]; try reflexivity; lia.
    - now rewrite orb_false_r. }
  unfold MJKDZ.setup, MJKDZ.write4b, HD44780.write.
  cbn [fst snd HD44780.m_port HD44780.written].
  rewrite Hb1, Hb2, <- app_assoc.
  repeat split.
Qed.

(** X20 with the data field in bits 0 to 3 and the enable bit 4:
    [write4b(0x35)] after [setup] writes 0x15 and then 0x05. *)
Lemma write4b_after_setup_witness :
  snd (MJKDZ.setup (HD44780.mk_MJKDZ 255 [])) = 0 /\
  HD44780.written (fst (MJKDZ.setup (HD44780.mk_MJKDZ 255 []))) = [] /\
  HD44780.written (MJKDZ.write4b 0 4 53 (fst (MJKDZ.setup (HD44780.mk_MJKDZ 255 [])))) =
    [] ++ [Z.lor (Z.shiftl (Z.land 53 15) 0) (_BV 4); Z.shiftl (Z.land 53 15) 0] /\
  HD44780.m_port (MJKDZ.write4b 0 4 53 (fst (MJKDZ.setup (HD44780.mk_MJKDZ 255 [])))) =
    Z.shiftl (Z.land 53 15) 0.
Proof.
  apply (write4b_after_setup 0 4 53 (HD44780.mk_MJKDZ 255 [])); lia.
Defined.
